(** * pyexchange / tethfinex.py: the Trustless Ethfinex client

    A shallow embedding of [pyexchange/tethfinex.py]: the value objects
    [Order] and [Trade] with their normalisation from raw API records, the
    token wrapper's [deposit], and the HTTP client [TEthfinexApi].

    Python exceptions are values of [exn] carried by [result]; the client's
    side effects (log lines and HTTP requests) are recorded, in order, by the
    small writer-and-error monad [M]. *)

From Stdlib Require Import ZArith List String Ascii Bool Lia DecimalString.
Import ListNotations.

Local Open Scope string_scope.
Local Open Scope Z_scope.

(** ** Exceptions and results *)

Inductive exn : Type :=
| AssertionError
| ArithmeticError                (* ZeroDivisionError and the decimal module's signals *)
| IndexError
| KeyError
| TypeError
| ValueError
| Exception (msg : string).

Inductive result (A : Type) : Type :=
| Ok (a : A)
| Raise (e : exn).

Arguments Ok {A} a.
Arguments Raise {A} e.

Definition rbind {A B} (r : result A) (k : A -> result B) : result B :=
  match r with
  | Ok a => k a
  | Raise e => Raise e
  end.

Declare Scope result_scope.
Delimit Scope result_scope with result.
Notation "x <- r ;; k" := (rbind r (fun x => k))
  (at level 61, r at next level, right associativity) : result_scope.

Definition raises {A} (r : result A) : bool :=
  match r with Ok _ => false | Raise _ => true end.

Fixpoint mapM {A B} (f : A -> result B) (l : list A) : result (list B) :=
  match l with
  | [] => Ok []
  | x :: tl =>
      (y <- f x ;;
       ys <- mapM f tl ;;
       Ok (y :: ys))%result
  end.

(** ** Numbers as they arrive in the decoded JSON

    A finite decimal [mant * 10 ^ expo].  In a raw order or trade record it
    is the number [Decimal(str(x))] that [Wad.from_number] reads from the
    Python [int] or [float] [x]. *)

Record number : Type := mkNumber { mant : Z; expo : Z }.

Definition number_pos (n : number) : bool := 0 <? mant n.
Definition number_zero (n : number) : bool := mant n =? 0.

(** Exact comparison of a decimal with an integer (Python compares a float
    and an int by value). *)
Definition number_eq_Z (n : number) (z : Z) : bool :=
  if 0 <=? expo n then mant n * 10 ^ expo n =? z
  else mant n =? z * 10 ^ (- expo n).

(** ** Decoded JSON values

    What [response.json()] returns: [None], [bool], [int], [float] (a finite
    one, given by its exact value), [str] (given by the bytes of its UTF-8
    encoding), [list] and [dict]. *)

#[local] Set Warnings "-register-all".

Inductive json : Type :=
| JNull
| JBool (b : bool)
| JInt (z : Z)
| JFloat (x : number)
| JStr (s : string)
| JArr (items : list json)
| JObj (fields : list (string * json)).

(** The number of bytes of the UTF-8 encoded character whose first byte is
    [c]. *)
Definition utf8_width (c : ascii) : nat :=
  let n := nat_of_ascii c in
  if (n <? 192)%nat then 1%nat
  else if (n <? 224)%nat then 2%nat
  else if (n <? 240)%nat then 3%nat
  else 4%nat.

(** [value[0]]: the first element of a list, the first character of a
    string. *)
Definition getitem0 (value : json) : result json :=
  match value with
  | JArr (first :: _) => Ok first
  | JArr [] => Raise IndexError
  | JStr (String c tl) =>
      Ok (JStr (String c (String.substring 0 (utf8_width c - 1) tl)))
  | JStr EmptyString => Raise IndexError
  | JObj _ => Raise KeyError
  | JNull | JBool _ | JInt _ | JFloat _ => Raise TypeError
  end.

(** [value == n] for an [int] [n]: numbers compare by value, [True] and
    [False] are the integers 1 and 0, and nothing else equals an integer. *)
Definition eq_int (value : json) (n : Z) : bool :=
  match value with
  | JInt z => z =? n
  | JBool b => (if b then 1 else 0) =? n
  | JFloat x => number_eq_Z x n
  | JNull | JStr _ | JArr _ | JObj _ => false
  end.

(** ** Strings of integers *)

Definition str_int (z : Z) : string := NilZero.string_of_int (Z.to_int z).

Fixpoint zeros (n : nat) : string :=
  match n with
  | O => ""
  | S k => String "0" (zeros k)
  end.

(** [str.zfill(width)]: zeros are inserted after a leading sign. *)
Definition zfill (width : nat) (s : string) : string :=
  let pad := zeros (width - String.length s) in
  match s with
  | String "-" rest => String "-" (pad ++ rest)
  | String "+" rest => String "+" (pad ++ rest)
  | _ => pad ++ s
  end.

(** [s.replace(old, new)] for a non-empty [old]: [skip] counts the
    characters of a match that are still to be dropped. *)
Fixpoint replace_from (skip : nat) (old new s : string) : string :=
  match s with
  | EmptyString => EmptyString
  | String c tl =>
      match skip with
      | S k => replace_from k old new tl
      | O =>
          if String.prefix old s
          then new ++ replace_from (String.length old - 1) old new tl
          else String c (replace_from O old new tl)
      end
  end.

Definition replace (old new s : string) : string := replace_from 0 old new s.

(** [needle in s] for strings. *)
Fixpoint contains (needle s : string) : bool :=
  String.prefix needle s ||
  match s with
  | EmptyString => false
  | String _ tl => contains needle tl
  end.

(** ** Wad: the fixed-point number of the price and amount fields *)

(** [Wad] is imported from the [pymaker] package, whose source is not part
    of this repository.  The spec describes it as an arbitrary-precision
    decimal-as-integer fixed-point type whose division by zero is an
    arithmetic error. *)
Module Wad.

(** Modelled from the spec: the fixed-point number, taken with [pymaker]'s 18
    decimal places: an integer [value] counting units of [10^-18]. *)
Record t : Type := mk { value : Z }.

Definition WAD : Z := 10 ^ 18.

(** Modelled from the spec: [Wad.from_number(number)], the decimal scaled by
    [10^18] and cut to an integer. *)
Definition from_number (n : number) : t :=
  let s := expo n + 18 in
  mk (if 0 <=? s then mant n * 10 ^ s else Z.quot (mant n) (10 ^ (- s))).

(** Modelled from the spec: [Wad.__mul__], the product rounded towards zero. *)
Definition mul (a b : t) : t := mk (Z.quot (value a * value b) WAD).

(** Modelled from the spec: [Wad.__truediv__], the quotient rounded towards
    zero; dividing by zero is an arithmetic error. *)
Definition div (a b : t) : result t :=
  if value b =? 0 then Raise ArithmeticError
  else Ok (mk (Z.quot (value a * WAD) (value b))).

(** Modelled from the spec: [Wad.__abs__]. *)
Definition abs (a : t) : t := mk (Z.abs (value a)).

(** Modelled from the spec: [Wad.__gt__]. *)
Definition gt (a b : t) : bool := value b <? value a.

(** Modelled from the spec: [Wad.__eq__]. *)
Definition eqb (a b : t) : bool := value a =? value b.

(** Modelled from the spec: [Wad.__str__], the integer part, a point and the
    18 decimals. *)
Definition str (a : t) : string :=
  let tmp := zfill 19 (str_int (value a)) in
  let n := String.length tmp in
  replace "-." "-0."
    (String.substring 0 (n - 18) tmp ++ "." ++ String.substring (n - 18) 18 tmp).

End Wad.

(** ** Order *)

(** A raw entry of the order book: the fields [to_order] reads from the
    decoded JSON object. *)
Module RawOrder.
Record t : Type := mk { id : Z; amount : number; price : number }.
End RawOrder.

Module Order.

Record t : Type := mk {
  order_id : Z;
  pair : string;
  is_sell : bool;
  price : Wad.t;
  amount : Wad.t
}.

Definition sell_to_buy_price (o : t) : Wad.t := price o.

Definition buy_to_sell_price (o : t) : Wad.t := price o.

Definition remaining_buy_amount (o : t) : Wad.t :=
  if is_sell o then Wad.mul (amount o) (price o) else amount o.

Definition remaining_sell_amount (o : t) : Wad.t :=
  if is_sell o then amount o else Wad.mul (amount o) (price o).

Definition to_order (pair : string) (order : RawOrder.t) : result t :=
  let is_sell :=
    if Wad.gt (Wad.from_number (RawOrder.amount order)) (Wad.mk 0)
    then true else false in
  let amount := Wad.abs (Wad.from_number (RawOrder.amount order)) in
  (price <- Wad.div amount
              (Wad.mul amount (Wad.from_number (RawOrder.price order))) ;;
   Ok (mk (RawOrder.id order)
          pair
          is_sell
          price
          (Wad.mul amount (Wad.from_number (RawOrder.price order)))))%result.

End Order.

(** ** Trade *)

(** A raw entry of the order history: the fields [to_trade] and the
    [EXECUTED] filter of [get_trades] read. *)
Module RawTrade.
Record t : Type := mk {
  id : Z;
  updated_at : string;
  status : string;
  pair : string;
  price : number;
  amount_orig : number
}.
End RawTrade.

Module Trade.

Record t : Type := mk {
  trade_id : Z;
  timestamp : Z;
  is_sell : bool;
  pair : string;
  price : Wad.t;
  amount : Wad.t
}.

Section to_trade.

(** [int(dateutil.parser.parse(s).timestamp())]; [None] when the parser
    rejects [s]. *)
Variable dateutil_timestamp : string -> option Z.

Definition parse_timestamp (s : string) : result Z :=
  match dateutil_timestamp s with
  | Some ts => Ok ts
  | None => Raise ValueError
  end.

Definition to_trade (trade : RawTrade.t) : result t :=
  let amount_orig := Wad.from_number (RawTrade.amount_orig trade) in
  let total := Wad.mul (Wad.from_number (RawTrade.price trade)) amount_orig in
  (ts <- parse_timestamp (RawTrade.updated_at trade ++ "Z") ;;
   price <- Wad.div amount_orig total ;;
   Ok (mk (RawTrade.id trade)
          ts
          (if Wad.gt amount_orig (Wad.mk 0) then true else false)
          (RawTrade.pair trade)
          price
          (Wad.abs total)))%result.

End to_trade.

(** The Python values a [Trade] may be compared with. *)
Inductive pyobj : Type :=
| PyTrade (trade : t)
| PyOrder (order : Order.t)
| PyWad (wad : Wad.t)
| PyJson (value : json).

Definition isinstance_Trade (other : pyobj) : bool :=
  match other with
  | PyTrade _ => true
  | _ => false
  end.

Definition __eq__ (self : t) (other : pyobj) : result bool :=
  match other with
  | PyTrade other =>
      Ok ((trade_id self =? trade_id other) &&
          (timestamp self =? timestamp other) &&
          Bool.eqb (is_sell self) (is_sell other) &&
          String.eqb (pair self) (pair other) &&
          Wad.eqb (price self) (price other) &&
          Wad.eqb (amount self) (amount other))
  | _ => Raise AssertionError
  end.

Section hashing.

(** The builtin [hash] on the tuple of the six fields. *)
Variable hash : Z * Z * bool * string * Wad.t * Wad.t -> Z.

Definition __hash__ (self : t) : Z :=
  hash (trade_id self, timestamp self, is_sell self, pair self,
        price self, amount self).

End hashing.

End Trade.

(** ** TEthfinexToken: the token wrapper *)

Module TEthfinexToken.

Record t : Type := mk { address : string; token : string }.

(** The arguments [deposit] hands to [Transact]: the contract function, its
    parameters and the extra transaction fields. *)
Record Transact : Type := mkTransact {
  origin : t;
  function_name : string;
  parameters : list Z;
  extra : list (string * Z)
}.

Definition deposit (self : t) (amount : Wad.t) (duration : Z) : Transact :=
  if String.eqb (token self) "ETH"
  then mkTransact self "deposit" [Wad.value amount; duration]
                  [("value", Wad.value amount)]
  else mkTransact self "deposit" [Wad.value amount; duration] [].

End TEthfinexToken.

(** ** Side effects of the client: log lines and HTTP requests *)

Inductive http_method : Type := GET | POST.

(** One call of [requests.get] or [requests.post]: [body] is the [json=]
    argument, absent when the call passes none. *)
Record Request : Type := mkRequest {
  method : http_method;
  url : string;
  body : option json;
  timeout : number
}.

(** What the client looks at in a [requests.Response]: [ok], the outcome of
    [json()] ([None] when it raises) and [http_response_summary]. *)
Record Response (A : Type) : Type := mkResponse {
  ok : bool;
  json_value : option A;
  summary : string
}.

Arguments mkResponse {A} ok json_value summary.
Arguments ok {A} r.
Arguments json_value {A} r.
Arguments summary {A} r.

(** The lines written to the logger, with the values interpolated in them. *)
Inductive log_line : Type :=
| PlacingOrder (side amount pair price : string)
| PlacedOrder (first : json)
| CancellingOrder (order_id : Z)
| CancelledOrder (order_id : Z)
| FailedToCancelOrder (order_id : Z).

Inductive event : Type :=
| Log (line : log_line)
| Http (request : Request).

(** A computation of the client: the events it caused, oldest first, and
    its outcome. *)
Definition M (A : Type) : Type := (list event * result A)%type.

Definition ret {A} (a : A) : M A := ([], Ok a).

Definition lift {A} (r : result A) : M A := ([], r).

Definition emit (e : event) : M unit := ([e], Ok tt).

Definition bind {A B} (m : M A) (k : A -> M B) : M B :=
  match m with
  | (es, Ok a) => let (es', r) := k a in ((es ++ es')%list, r)
  | (es, Raise e) => (es, Raise e)
  end.

Declare Scope client_scope.
Delimit Scope client_scope with client.
Notation "x <- m ;; k" := (bind m (fun x => k))
  (at level 61, m at next level, right associativity) : client_scope.
Notation "m ;;; k" := (bind m (fun _ => k))
  (at level 61, right associativity) : client_scope.

Definition events {A} (m : M A) : list event := fst m.
Definition outcome {A} (m : M A) : result A := snd m.

(** The HTTP requests among the events. *)
Fixpoint requests_of (es : list event) : list Request :=
  match es with
  | [] => []
  | Http r :: tl => r :: requests_of tl
  | Log _ :: tl => requests_of tl
  end.

(** [assert(condition)] *)
Definition assert (condition : bool) : M unit :=
  if condition then ret tt else lift (Raise AssertionError).

(** ** The 0x exchange binding and its orders (from [pymaker.zrx]) *)

Module ZrxOrder.

Record t : Type := mk {
  maker : string;
  taker : string;
  maker_fee : Wad.t;
  taker_fee : Wad.t;
  pay_token : string;
  pay_amount : Wad.t;
  buy_token : string;
  buy_amount : Wad.t;
  salt : Z;
  fee_recipient : string;
  expiration : Z;
  exchange_contract_address : string;
  ec_signature_r : option string;
  ec_signature_s : option string;
  ec_signature_v : option Z
}.

End ZrxOrder.

(** What the client uses of a [ZrxExchange]: the default account of its
    [web3], its address, [random_salt()] and [sign_order]. *)
Record ZrxExchange : Type := mkZrxExchange {
  default_account : string;
  address : string;
  random_salt : Z;
  sign_order : ZrxOrder.t -> ZrxOrder.t
}.

(** A raw entry of the public trade history read by [get_all_trades]. *)
Module RawPublicTrade.
Record t : Type := mk {
  tid : Z;
  timestamp : Z;
  type : string;
  price : number;
  amount : number
}.
End RawPublicTrade.

(** ** TEthfinexApi *)

Module TEthfinexApi.

Record t : Type := mk {
  tethfinex : ZrxExchange;
  api_server : string;
  timeout : number
}.

(** What the methods read from outside the object: the clock, the library
    functions they call and the server behind [requests].  The server's
    decoded JSON has, per endpoint, the type of the records the client reads
    from it.

    [datetime.datetime.today()] is a naive local date and time, here the
    number of seconds it counts on the local wall clock; adding a [timedelta]
    adds seconds on that clock, and [strftime("%s")] leaves it to the platform
    and its time zone to say which unix time the result is. *)
Record World : Type := mkWorld {
  today : Z;                                  (* datetime.datetime.today(): the naive local
                                                 date and time, in seconds on the wall clock *)
  strftime_s : Z -> Z;                        (* int(d.strftime("%s")): the unix time the
                                                 platform gives for the naive local d *)
  nonce_now : string;                         (* str(time.time() + 3) *)
  eth_sign : string -> string;
  to_json : ZrxOrder.t -> json;               (* ZrxOrder.to_json *)
  json_dumps : json -> string;                (* json.dumps(body, separators=(',', ':')) *)
  dateutil_timestamp : string -> option Z;
  requests_get : Request -> Response json;
  requests_post : Request -> Response json;
  requests_post_orders : Request -> Response (list RawOrder.t);
  requests_post_history : Request -> Response (list RawTrade.t);
  requests_get_trades : Request -> Response (list RawPublicTrade.t)
}.

Definition _result {A} (response : Response A) : result A :=
  if negb (ok response)
  then Raise (Exception ("Ethfinex API invalid HTTP response: " ++ summary response))
  else
    match json_value response with
    | None =>
        Raise (Exception ("Ethfinex API invalid JSON response: " ++ summary response))
    | Some data => Ok data
    end.

Section methods.

Variable w : World.
Variable self : t.

Definition _http_get {A} (get : Request -> Response A)
    (resource : string) (body : list (string * json)) : M A :=
  match body with
  | [] =>
      let request := mkRequest GET (api_server self ++ resource) None (timeout self) in
      (emit (Http request) ;;; lift (_result (get request)))%client
  | _ =>
      let data := json_dumps w (JObj body) in
      let request :=
        mkRequest GET (api_server self ++ resource) (Some (JStr data)) (timeout self) in
      (emit (Http request) ;;; lift (_result (get request)))%client
  end.

Definition _http_post {A} (post : Request -> Response A)
    (resource : string) (body : list (string * json)) : M A :=
  match body with
  | [] =>
      let request := mkRequest POST (api_server self ++ resource) None (timeout self) in
      (emit (Http request) ;;; lift (_result (post request)))%client
  | _ =>
      let request :=
        mkRequest POST (api_server self ++ resource) (Some (JObj body)) (timeout self) in
      (emit (Http request) ;;; lift (_result (post request)))%client
  end.

Definition _get_orders {A} (post : Request -> Response A) (endpoint : string) : M A :=
  let nonce := nonce_now w in
  let body := [("protocol", JStr "0x");
               ("nonce", JStr nonce);
               ("signature", JStr (eth_sign w nonce))] in
  _http_post post endpoint body.

Definition get_symbols : M json :=
  _http_get (requests_get w) "/v1/symbols" [].

Definition get_config : M json :=
  _http_post (requests_post w) "/trustless/v1/r/get/conf" [].

Definition get_orders (pair : string) : M (list Order.t) :=
  (result <- _get_orders (requests_post_orders w) ("/trustless/v1/r/orders/t" ++ pair) ;;
   lift (mapM (fun order => Order.to_order pair order) result))%client.

(** The payload of [place_order]. *)
Definition place_order_data (is_sell : bool) (pay_amount buy_amount : Wad.t)
    (pair : string) (price : Wad.t) (signed_order : ZrxOrder.t)
    : list (string * json) :=
  [("type", JStr "EXCHANGE LIMIT");
   ("symbol", JStr ("t" ++ pair));
   ("amount", JStr (if is_sell then Wad.str buy_amount
                    else "-" ++ Wad.str pay_amount));
   ("price", JStr (Wad.str price));
   ("meta", to_json w signed_order);
   ("protocol", JStr "0x")].

Definition place_order (is_sell : bool) (pay_token : string) (pay_amount : Wad.t)
    (buy_token : string) (buy_amount : Wad.t) (fee_address : string)
    (pair : string) : M json :=
  let expiration := strftime_s w (today w + 6 * 3600) in
  (order_pay_amount <-
     lift (if is_sell
           then (ratio <- Wad.div pay_amount buy_amount ;;
                 Ok (Wad.mul ratio buy_amount))%result
           else Ok pay_amount) ;;
   order_buy_amount <-
     lift (if is_sell
           then Ok buy_amount
           else (ratio <- Wad.div buy_amount pay_amount ;;
                 Ok (Wad.mul ratio pay_amount))%result) ;;
   let order :=
     ZrxOrder.mk (default_account (tethfinex self))
                 fee_address
                 (Wad.mk 0)
                 (Wad.mk 0)
                 pay_token
                 order_pay_amount
                 buy_token
                 order_buy_amount
                 (random_salt (tethfinex self))
                 fee_address
                 expiration
                 (address (tethfinex self))
                 None None None in
   let signed_order := sign_order (tethfinex self) order in
   price <- lift (if is_sell then Wad.div pay_amount buy_amount
                  else Wad.div buy_amount pay_amount) ;;
   let data := place_order_data is_sell pay_amount buy_amount pair price signed_order in
   let side := if is_sell then "SELL" else "BUY" in
   emit (Log (PlacingOrder side
                (if is_sell then Wad.str buy_amount else "-" ++ Wad.str pay_amount)
                pair (Wad.str price))) ;;;
   result <- _http_post (requests_post w) "/trustless/v1/w/on" data ;;
   first <- lift (getitem0 result) ;;
   emit (Log (PlacedOrder first)) ;;;
   ret first)%client.

Definition cancel_order (order_id : Z) : M bool :=
  (emit (Log (CancellingOrder order_id)) ;;;
   let data := [("orderId", JStr (str_int order_id));
                ("protocol", JStr "0x");
                ("signature", JStr (eth_sign w (str_int order_id)))] in
   result <- _http_post (requests_post w) "/trustless/v1/w/oc" data ;;
   first <- lift (getitem0 result) ;;
   let success := eq_int first order_id in
   (if success
    then emit (Log (CancelledOrder order_id))
    else emit (Log (FailedToCancelOrder order_id))) ;;;
   ret success)%client.

Definition get_trades (pair : string) (page_number : Z) : M (list Trade.t) :=
  (assert (page_number =? 1) ;;;
   result <- _get_orders (requests_post_history w) "/trustless/v1/r/orders/hist" ;;
   let executed_orders :=
     filter (fun order => contains "EXECUTED" (RawTrade.status order)) result in
   lift (mapM (fun trade => Trade.to_trade (dateutil_timestamp w) trade)
              executed_orders))%client.

Definition get_all_trades (pair : string) (page_number : Z) : M (list Trade.t) :=
  (assert (page_number =? 1) ;;;
   result <- _http_get (requests_get_trades w) ("/v1/trades/" ++ pair) [] ;;
   ret (map (fun item =>
               Trade.mk (RawPublicTrade.tid item)
                        (RawPublicTrade.timestamp item)
                        (if String.eqb (RawPublicTrade.type item) "sell"
                         then true else false)
                        pair
                        (Wad.from_number (RawPublicTrade.price item))
                        (Wad.from_number (RawPublicTrade.amount item)))
            result))%client.

End methods.

End TEthfinexApi.

(** ** Sample data *)

(** An order of amount 1 quoted at price 0. *)
Definition zero_price_order : RawOrder.t :=
  RawOrder.mk 7 (mkNumber 1 0) (mkNumber 0 0).

(** An order of amount -2.5 quoted at price 200. *)
Definition sample_order : RawOrder.t :=
  RawOrder.mk 8 (mkNumber (-25) (-1)) (mkNumber 200 0).

(** A clock reading for the sample history: noon on 2019-06-01, UTC. *)
Definition sample_timestamp (s : string) : option Z :=
  if String.eqb s "2019-06-01T12:00:00Z" then Some 1559390400 else None.

(** An executed order of amount 1 at price 3. *)
Definition third_trade : RawTrade.t :=
  RawTrade.mk 11 "2019-06-01T12:00:00" "EXECUTED @ 3.0(1.0)" "ETHUSD"
              (mkNumber 3 0) (mkNumber 1 0).

(** A history entry whose original amount is 0. *)
Definition zero_trade : RawTrade.t :=
  RawTrade.mk 12 "2019-06-01T12:00:00" "EXECUTED" "ETHUSD"
              (mkNumber 3 0) (mkNumber 0 0).

(** A history entry that was cancelled, not executed. *)
Definition cancelled_trade : RawTrade.t :=
  RawTrade.mk 13 "2019-06-01T12:00:00" "CANCELED" "ZRXETH"
              (mkNumber 5 (-1)) (mkNumber (-4) 0).

(** An exchange binding that signs by filling in the three signature fields. *)
Definition sample_exchange : ZrxExchange :=
  mkZrxExchange "0xmaker" "0xexchange" 12345
    (fun order =>
       ZrxOrder.mk (ZrxOrder.maker order) (ZrxOrder.taker order)
                   (ZrxOrder.maker_fee order) (ZrxOrder.taker_fee order)
                   (ZrxOrder.pay_token order) (ZrxOrder.pay_amount order)
                   (ZrxOrder.buy_token order) (ZrxOrder.buy_amount order)
                   (ZrxOrder.salt order) (ZrxOrder.fee_recipient order)
                   (ZrxOrder.expiration order)
                   (ZrxOrder.exchange_contract_address order)
                   (Some "0xr") (Some "0xs") (Some 27)).

Definition sample_api : TEthfinexApi.t :=
  TEthfinexApi.mk sample_exchange "https://api.example" (mkNumber 95 (-1)).

(** A world whose write endpoints answer every request with [answer] and
    whose order history holds [third_trade] and [cancelled_trade]. *)
Definition sample_world (answer : Response json) : TEthfinexApi.World :=
  TEthfinexApi.mkWorld
    1559397600
    (fun wall_clock => wall_clock - 7200)
    "1559390403.5"
    (fun message => "signed:" ++ message)
    (fun order => JObj [("maker", JStr (ZrxOrder.maker order));
                        ("salt", JInt (ZrxOrder.salt order))])
    (fun _ => "{}")
    sample_timestamp
    (fun _ => mkResponse true (Some (JArr [JStr "ethusd"])) "200 OK")
    (fun _ => answer)
    (fun _ => mkResponse true (Some [sample_order]) "200 OK")
    (fun _ => mkResponse true (Some [third_trade; cancelled_trade]) "200 OK")
    (fun _ => mkResponse true (Some []) "200 OK").

(** The answer of a server that accepted order 4711. *)
Definition accepted_answer : Response json :=
  mkResponse true (Some (JArr [JInt 4711; JStr "tETHUSD"])) "200 OK".

(** A well-formed JSON answer with no element at all. *)
Definition empty_answer : Response json :=
  mkResponse true (Some (JArr [])) "200 OK".

(** A public trade: a sale of 2 at price 250. *)
Definition public_sale : RawPublicTrade.t :=
  RawPublicTrade.mk 21 1559390400 "sell" (mkNumber 250 0) (mkNumber 2 0).

(** A world whose order book and order history each hold one entry that
    cannot be converted, and whose public trade history holds a sale and an
    entry of price and amount 0. *)
Definition faulty_world : TEthfinexApi.World :=
  TEthfinexApi.mkWorld
    1559397600
    (fun wall_clock => wall_clock - 7200)
    "1559390403.5"
    (fun message => "signed:" ++ message)
    (fun order => JObj [("maker", JStr (ZrxOrder.maker order))])
    (fun _ => "{}")
    sample_timestamp
    (fun _ => mkResponse true (Some (JArr [JStr "ethusd"])) "200 OK")
    (fun _ => accepted_answer)
    (fun _ => mkResponse true (Some [sample_order; zero_price_order]) "200 OK")
    (fun _ => mkResponse true (Some [third_trade; zero_trade]) "200 OK")
    (fun _ => mkResponse true
                (Some [public_sale;
                       RawPublicTrade.mk 22 1559390401 "buy" (mkNumber 0 0) (mkNumber 0 0)])
                "200 OK").

(** A world whose server answers every request with a 503. *)
Definition down_world : TEthfinexApi.World :=
  TEthfinexApi.mkWorld
    1559397600
    (fun wall_clock => wall_clock - 7200)
    "1559390403.5"
    (fun message => "signed:" ++ message)
    (fun order => JObj [])
    (fun _ => "{}")
    sample_timestamp
    (fun _ => mkResponse false None "503 Service Unavailable")
    (fun _ => mkResponse false None "503 Service Unavailable")
    (fun _ => mkResponse false None "503 Service Unavailable")
    (fun _ => mkResponse false None "503 Service Unavailable")
    (fun _ => mkResponse false None "503 Service Unavailable").

(** A call that ended in the error [_result] raises for a response that is
    not [ok]. *)
Definition raises_http_error {A} (m : M A) : Prop :=
  exists s : string,
    outcome m = Raise (Exception ("Ethfinex API invalid HTTP response: " ++ s)).

(** * Properties *)

(** ** Arithmetic of [Wad] *)

Lemma WAD_pos : 0 < Wad.WAD.
Proof. reflexivity. Qed.

Lemma pow10_pos (s : Z) : 0 <= s -> 0 < 10 ^ s.
Proof. intros Hs. apply Z.pow_pos_nonneg; lia. Qed.

Lemma quot_sign_pos (m d : Z) : 0 < d -> Z.quot m d <> 0 -> (0 <? Z.quot m d) = (0 <? m).
Proof.
  intros Hd Hq.
  destruct (Z.ltb_spec 0 m) as [Hm | Hm].
  - assert (0 <= Z.quot m d) by (apply Z.quot_pos; lia).
    apply Z.ltb_lt. lia.
  - assert (0 <= Z.quot (- m) d) as H by (apply Z.quot_pos; lia).
    rewrite Z.quot_opp_l in H by lia.
    apply Z.ltb_ge. lia.
Qed.

(** A raw number and the [Wad] read from it have the same sign, unless the
    [Wad] is zero. *)
Lemma from_number_sign (n : number) :
  Wad.value (Wad.from_number n) <> 0 ->
  Wad.gt (Wad.from_number n) (Wad.mk 0) = number_pos n.
Proof.
  unfold Wad.gt, Wad.from_number, number_pos. cbn [Wad.value].
  destruct (Z.leb_spec 0 (expo n + 18)) as [Hs | Hs]; intros Hv.
  - pose proof (pow10_pos _ Hs) as Hp.
    destruct (Z.ltb_spec 0 (mant n)) as [Hm | Hm].
    + apply Z.ltb_lt. nia.
    + apply Z.ltb_ge. nia.
  - apply quot_sign_pos; [apply pow10_pos; lia | exact Hv].
Qed.

(** A raw zero is read as the [Wad] zero. *)
Lemma from_number_zero (n : number) :
  mant n = 0 -> Wad.value (Wad.from_number n) = 0.
Proof.
  intros Hm. unfold Wad.from_number. cbn [Wad.value]. rewrite Hm.
  destruct (Z.leb_spec 0 (expo n + 18)) as [Hs | Hs]; [reflexivity |].
  apply Z.quot_0_l. apply Z.pow_nonzero; [discriminate | lia].
Qed.

Lemma mul_nonzero_l (a b : Wad.t) :
  Wad.value (Wad.mul a b) <> 0 -> Wad.value a <> 0.
Proof.
  unfold Wad.mul. cbn [Wad.value]. intros H Ha. apply H.
  rewrite Ha, Z.mul_0_l. apply Z.quot_0_l. discriminate.
Qed.

Lemma mul_nonzero_r (a b : Wad.t) :
  Wad.value (Wad.mul a b) <> 0 -> Wad.value b <> 0.
Proof.
  unfold Wad.mul. cbn [Wad.value]. intros H Hb. apply H.
  rewrite Hb, Z.mul_0_r. apply Z.quot_0_l. discriminate.
Qed.

Lemma div_nonzero (a b : Wad.t) :
  Wad.value b <> 0 ->
  Wad.div a b = Ok (Wad.mk (Z.quot (Wad.value a * Wad.WAD) (Wad.value b))).
Proof.
  intros Hb. unfold Wad.div.
  destruct (Z.eqb_spec (Wad.value b) 0) as [H0 | _]; [contradiction | reflexivity].
Qed.

Lemma div_zero (a b : Wad.t) :
  Wad.value b = 0 -> Wad.div a b = Raise ArithmeticError.
Proof. intros Hb. unfold Wad.div. rewrite Hb. reflexivity. Qed.

(** Dividing and multiplying back loses less than one unit of the quotient
    and one unit of the product. *)
Lemma div_mul_error (a t : Z) :
  t <> 0 ->
  Z.abs (a - Z.quot (Z.quot (a * Wad.WAD) t * t) Wad.WAD) * Wad.WAD
  < Z.abs t + Wad.WAD.
Proof.
  intros Ht.
  pose proof WAD_pos as HW.
  pose proof (Z.quot_rem' (a * Wad.WAD) t) as E1.
  pose proof (Z.rem_bound_abs (a * Wad.WAD) t Ht) as B1.
  set (p := Z.quot (a * Wad.WAD) t) in *.
  pose proof (Z.quot_rem' (p * t) Wad.WAD) as E2.
  assert (Wad.WAD <> 0) as HW0 by lia.
  pose proof (Z.rem_bound_abs (p * t) Wad.WAD HW0) as B2.
  set (r := Z.quot (p * t) Wad.WAD) in *.
  set (r1 := Z.rem (a * Wad.WAD) t) in *.
  set (r2 := Z.rem (p * t) Wad.WAD) in *.
  assert ((a - r) * Wad.WAD = r1 + r2) as E by lia.
  replace (Z.abs (a - r) * Wad.WAD) with (Z.abs ((a - r) * Wad.WAD))
    by (rewrite Z.abs_mul, (Z.abs_eq Wad.WAD); lia).
  rewrite E. lia.
Qed.

(** ** Wad on sample values *)

Example str_of_one_and_a_half :
  Wad.str (Wad.from_number (mkNumber 15 (-1))) = "1.500000000000000000".
Proof. vm_compute. reflexivity. Qed.

Example str_of_small_negative : Wad.str (Wad.mk (-5)) = "-0.000000000000000005".
Proof. vm_compute. reflexivity. Qed.

Example str_of_large_negative :
  Wad.str (Wad.mk (-12345678901234567890123)) = "-12345.678901234567890123".
Proof. vm_compute. reflexivity. Qed.

Example one_third :
  Wad.div (Wad.from_number (mkNumber 1 0)) (Wad.from_number (mkNumber 3 0))
  = Ok (Wad.mk 333333333333333333).
Proof. vm_compute. reflexivity. Qed.

(** ** Element 0 of a string *)

(** The string "\195\169t\195\169" (the UTF-8 bytes of e-acute, t, e-acute)
    has the two bytes of its first character as element 0. *)
Example getitem0_of_accented_string :
  getitem0 (JStr (String (ascii_of_nat 195) (String (ascii_of_nat 169)
              (String "t" (String (ascii_of_nat 195) (String (ascii_of_nat 169) ""))))))
  = Ok (JStr (String (ascii_of_nat 195) (String (ascii_of_nat 169) ""))).
Proof. vm_compute. reflexivity. Qed.

Example getitem0_of_plain_string : getitem0 (JStr "error") = Ok (JStr "e").
Proof. vm_compute. reflexivity. Qed.

(** ** Order.to_order *)

(** C1, as stated, fails: an order with a nonzero amount and price 0 has a
    zero quote amount, and [to_order] raises instead of returning. *)
Lemma to_order_zero_price_raises :
  number_zero (RawOrder.amount zero_price_order) = false /\
  Order.to_order "ETHUSD" zero_price_order = Raise ArithmeticError.
Proof. split; vm_compute; reflexivity. Qed.

(** C1 (amended): for every raw order whose quote amount
    [abs(amount) * price] is a nonzero [Wad], [to_order] returns an [Order]
    carrying the raw id and the given pair, whose [is_sell] is
    [raw.amount > 0], whose [amount] is [abs(raw.amount) * raw.price] and
    whose [price] is [abs(raw.amount) / (abs(raw.amount) * raw.price)]. *)
Theorem to_order_fields (pair : string) (raw : RawOrder.t) :
  let amount := Wad.abs (Wad.from_number (RawOrder.amount raw)) in
  let quote := Wad.mul amount (Wad.from_number (RawOrder.price raw)) in
  Wad.value quote <> 0 ->
  exists o : Order.t,
    Order.to_order pair raw = Ok o /\
    Order.order_id o = RawOrder.id raw /\
    Order.pair o = pair /\
    Order.is_sell o = number_pos (RawOrder.amount raw) /\
    Order.amount o = quote /\
    Wad.div amount quote = Ok (Order.price o).
Proof.
  intros amount quote Hq.
  assert (Wad.value (Wad.from_number (RawOrder.amount raw)) <> 0) as Ha.
  { apply mul_nonzero_l in Hq. unfold amount, Wad.abs in Hq. cbn [Wad.value] in Hq. lia. }
  unfold Order.to_order. fold amount. fold quote.
  rewrite (div_nonzero amount quote Hq). cbn [rbind].
  eexists. split; [reflexivity |]. cbn [Order.order_id Order.pair Order.is_sell
    Order.amount Order.price].
  repeat split.
  rewrite (from_number_sign _ Ha). destruct (number_pos (RawOrder.amount raw)); reflexivity.
Qed.

Lemma to_order_fields_witness :
  let amount := Wad.abs (Wad.from_number (RawOrder.amount sample_order)) in
  let quote := Wad.mul amount (Wad.from_number (RawOrder.price sample_order)) in
  exists o : Order.t,
    Order.to_order "ETHUSD" sample_order = Ok o /\
    Order.order_id o = RawOrder.id sample_order /\
    Order.pair o = "ETHUSD" /\
    Order.is_sell o = number_pos (RawOrder.amount sample_order) /\
    Order.amount o = quote /\
    Wad.div amount quote = Ok (Order.price o).
Proof.
  apply (to_order_fields "ETHUSD" sample_order).
  vm_compute. discriminate.
Defined.

(** ** Trade.to_trade *)

(** C2, as stated, fails twice.  For the trade of amount 1 at price 3 the
    stored price is [0.333333333333333333], and multiplied back by the total
    it gives [0.999999999999999999], not the original amount 1; and the entry
    whose total is 0 makes [to_trade] raise instead of returning. *)
Lemma to_trade_round_trip_inexact :
  (exists t : Trade.t,
     Trade.to_trade sample_timestamp third_trade = Ok t /\
     Wad.mul (Trade.price t)
             (Wad.mul (Wad.from_number (RawTrade.price third_trade))
                      (Wad.from_number (RawTrade.amount_orig third_trade)))
     = Wad.mk 999999999999999999 /\
     Wad.from_number (RawTrade.amount_orig third_trade)
     = Wad.mk 1000000000000000000 /\
     Wad.mul (Trade.price t)
             (Wad.mul (Wad.from_number (RawTrade.price third_trade))
                      (Wad.from_number (RawTrade.amount_orig third_trade)))
     <> Wad.from_number (RawTrade.amount_orig third_trade)) /\
  Trade.to_trade sample_timestamp zero_trade = Raise ArithmeticError.
Proof.
  split; [| vm_compute; reflexivity].
  exists (Trade.mk 11 1559390400 true "ETHUSD"
                   (Wad.mk 333333333333333333) (Wad.mk 3000000000000000000)).
  split; [vm_compute; reflexivity |].
  split; [vm_compute; reflexivity |].
  split; [vm_compute; reflexivity |].
  intros H. vm_compute in H. discriminate H.
Qed.

(** C2 (amended): for every raw trade whose [updated_at + "Z"] parses and
    whose [total = raw.price * raw.amount_orig] is a nonzero [Wad],
    [to_trade] returns a [Trade] whose [timestamp] is the integer the parser
    gives for [updated_at + "Z"] and whose [price] is [amount_orig / total];
    [price * total] approximates [amount_orig]: the two differ by less than
    [abs(total) * 10^-18 + 1] units of [10^-18]. *)
Theorem to_trade_round_trip (parse : string -> option Z) (raw : RawTrade.t) (ts : Z) :
  let amount_orig := Wad.from_number (RawTrade.amount_orig raw) in
  let total := Wad.mul (Wad.from_number (RawTrade.price raw)) amount_orig in
  parse (RawTrade.updated_at raw ++ "Z") = Some ts ->
  Wad.value total <> 0 ->
  exists t : Trade.t,
    Trade.to_trade parse raw = Ok t /\
    Trade.timestamp t = ts /\
    Wad.div amount_orig total = Ok (Trade.price t) /\
    Z.abs (Wad.value amount_orig - Wad.value (Wad.mul (Trade.price t) total)) * Wad.WAD
    < Z.abs (Wad.value total) + Wad.WAD.
Proof.
  intros amount_orig total Hts Ht.
  unfold Trade.to_trade, Trade.parse_timestamp. fold amount_orig. fold total.
  rewrite Hts. cbn [rbind].
  rewrite (div_nonzero amount_orig total Ht). cbn [rbind].
  eexists. split; [reflexivity |].
  cbn [Trade.timestamp Trade.price]. split; [reflexivity |]. split; [reflexivity |].
  unfold Wad.mul at 1. cbn [Wad.value].
  apply div_mul_error. exact Ht.
Qed.

Lemma to_trade_round_trip_witness :
  let amount_orig := Wad.from_number (RawTrade.amount_orig third_trade) in
  let total := Wad.mul (Wad.from_number (RawTrade.price third_trade)) amount_orig in
  exists t : Trade.t,
    Trade.to_trade sample_timestamp third_trade = Ok t /\
    Trade.timestamp t = 1559390400 /\
    Wad.div amount_orig total = Ok (Trade.price t) /\
    Z.abs (Wad.value amount_orig - Wad.value (Wad.mul (Trade.price t) total)) * Wad.WAD
    < Z.abs (Wad.value total) + Wad.WAD.
Proof.
  apply (to_trade_round_trip sample_timestamp third_trade 1559390400).
  - vm_compute. reflexivity.
  - vm_compute. discriminate.
Defined.

(** ** Division by zero in the reciprocal prices *)

Lemma quot_abs_le (a b : Z) : b <> 0 -> Z.abs (Z.quot a b) <= Z.abs a.
Proof.
  intros Hb. rewrite <- (Z.quot_abs a b Hb).
  apply Z.quot_le_upper_bound; [lia |].
  assert (1 <= Z.abs b) by lia. assert (0 <= Z.abs a) by lia. nia.
Qed.

Lemma div_Ok_inv (a b q : Wad.t) :
  Wad.div a b = Ok q ->
  Wad.value b <> 0 /\ q = Wad.mk (Z.quot (Wad.value a * Wad.WAD) (Wad.value b)).
Proof.
  unfold Wad.div. destruct (Z.eqb_spec (Wad.value b) 0) as [H0 | H0].
  - discriminate.
  - intros [= <-]. split; [exact H0 | reflexivity].
Qed.

(** C5: when the raw amount of an order is read as the [Wad] 0, [to_order]
    raises an arithmetic error; when the total of a trade is the [Wad] 0, the
    reciprocal price [amount_orig / total] raises an arithmetic error and
    [to_trade] raises (that very error once the timestamp has been parsed).
    Whatever the two functions return was computed with a nonzero divisor and
    is an integer count of [10^-18] units, bounded by the dividend scaled by
    [10^18]: no infinity and no NaN. *)
Theorem reciprocal_of_zero_raises :
  (forall (pair : string) (raw : RawOrder.t),
     Wad.value (Wad.from_number (RawOrder.amount raw)) = 0 ->
     Order.to_order pair raw = Raise ArithmeticError) /\
  (forall (parse : string -> option Z) (raw : RawTrade.t),
     let amount_orig := Wad.from_number (RawTrade.amount_orig raw) in
     let total := Wad.mul (Wad.from_number (RawTrade.price raw)) amount_orig in
     Wad.value total = 0 ->
     Wad.div amount_orig total = Raise ArithmeticError /\
     raises (Trade.to_trade parse raw) = true /\
     (forall ts, parse (RawTrade.updated_at raw ++ "Z") = Some ts ->
                 Trade.to_trade parse raw = Raise ArithmeticError)) /\
  (forall (pair : string) (raw : RawOrder.t) (o : Order.t),
     Order.to_order pair raw = Ok o ->
     Wad.value (Wad.from_number (RawOrder.amount raw)) <> 0 /\
     Z.abs (Wad.value (Order.price o))
     <= Z.abs (Wad.value (Wad.from_number (RawOrder.amount raw))) * Wad.WAD) /\
  (forall (parse : string -> option Z) (raw : RawTrade.t) (t : Trade.t),
     Trade.to_trade parse raw = Ok t ->
     Wad.value (Wad.mul (Wad.from_number (RawTrade.price raw))
                        (Wad.from_number (RawTrade.amount_orig raw))) <> 0 /\
     Z.abs (Wad.value (Trade.price t))
     <= Z.abs (Wad.value (Wad.from_number (RawTrade.amount_orig raw))) * Wad.WAD).
Proof.
  pose proof WAD_pos as HW.
  split; [| split; [| split]].
  - intros pair raw Ha. unfold Order.to_order.
    rewrite div_zero; [reflexivity |].
    unfold Wad.mul, Wad.abs. cbn [Wad.value]. rewrite Ha. reflexivity.
  - intros parse raw amount_orig total Ht.
    assert (Wad.div amount_orig total = Raise ArithmeticError) as Hd
      by (apply div_zero; exact Ht).
    split; [exact Hd |].
    unfold Trade.to_trade, Trade.parse_timestamp. fold amount_orig. fold total.
    rewrite Hd. split.
    + destruct (parse _); reflexivity.
    + intros ts Hts. rewrite Hts. reflexivity.
  - intros pair raw o. unfold Order.to_order.
    destruct (Wad.div _ _) as [q |] eqn:Hd; cbn [rbind]; [| discriminate].
    intros [= <-]. cbn [Order.price].
    apply div_Ok_inv in Hd. destruct Hd as [Hq ->]. cbn [Wad.value].
    split.
    + apply mul_nonzero_l in Hq. unfold Wad.abs in Hq. cbn [Wad.value] in Hq. lia.
    + etransitivity; [apply quot_abs_le; exact Hq |].
      unfold Wad.abs. cbn [Wad.value]. rewrite Z.abs_mul. lia.
  - intros parse raw t. unfold Trade.to_trade.
    destruct (Trade.parse_timestamp _ _) as [ts |]; cbn [rbind]; [| discriminate].
    destruct (Wad.div _ _) as [q |] eqn:Hd; cbn [rbind]; [| discriminate].
    intros [= <-]. cbn [Trade.price].
    apply div_Ok_inv in Hd. destruct Hd as [Hq ->]. cbn [Wad.value].
    split; [exact Hq |].
    etransitivity; [apply quot_abs_le; exact Hq |].
    rewrite Z.abs_mul. lia.
Qed.

Lemma reciprocal_of_zero_raises_witness :
  Order.to_order "ETHUSD" (RawOrder.mk 9 (mkNumber 0 0) (mkNumber 200 0))
  = Raise ArithmeticError /\
  Trade.to_trade sample_timestamp zero_trade = Raise ArithmeticError.
Proof.
  destruct reciprocal_of_zero_raises as [Horder [Htrade _]].
  split.
  - apply Horder. apply from_number_zero. reflexivity.
  - assert (Wad.value
              (Wad.mul (Wad.from_number (RawTrade.price zero_trade))
                       (Wad.from_number (RawTrade.amount_orig zero_trade))) = 0)
      as Hzero by (vm_compute; reflexivity).
    destruct (Htrade sample_timestamp zero_trade Hzero) as [_ [_ Hraise]].
    apply (Hraise 1559390400). vm_compute. reflexivity.
Defined.

(** ** Trade.__eq__ *)

Lemma Wad_eqb_eq (a b : Wad.t) : Wad.eqb a b = true <-> a = b.
Proof.
  unfold Wad.eqb. rewrite Z.eqb_eq. destruct a as [x], b as [y]. cbn [Wad.value].
  split; [intros -> | intros [= ->]]; reflexivity.
Qed.

(** C10: comparing a [Trade] with a value that is not a [Trade] raises an
    assertion error; between two trades the comparison returns a boolean,
    true exactly when the six fields are equal. *)
Theorem trade_eq_asserts_trade (t : Trade.t) :
  (forall other : Trade.pyobj,
     Trade.isinstance_Trade other = false ->
     Trade.__eq__ t other = Raise AssertionError) /\
  (forall o : Trade.t,
     exists b : bool,
       Trade.__eq__ t (Trade.PyTrade o) = Ok b /\
       (b = true <->
        Trade.trade_id t = Trade.trade_id o /\
        Trade.timestamp t = Trade.timestamp o /\
        Trade.is_sell t = Trade.is_sell o /\
        Trade.pair t = Trade.pair o /\
        Trade.price t = Trade.price o /\
        Trade.amount t = Trade.amount o)).
Proof.
  split.
  - intros [o | o | x | j] H; cbn in H; [discriminate | reflexivity ..].
  - intros o. eexists. split; [reflexivity |].
    rewrite !andb_true_iff, !Z.eqb_eq, Bool.eqb_true_iff, String.eqb_eq, !Wad_eqb_eq.
    tauto.
Qed.

Lemma trade_eq_asserts_trade_witness :
  Trade.__eq__ (Trade.mk 1 2 true "ETHUSD" (Wad.mk 3) (Wad.mk 4))
               (Trade.PyJson (JInt 1))
  = Raise AssertionError.
Proof.
  apply (proj1 (trade_eq_asserts_trade (Trade.mk 1 2 true "ETHUSD" (Wad.mk 3) (Wad.mk 4)))).
  reflexivity.
Defined.

(** ** TEthfinexToken.deposit *)

(** C8: [deposit] builds the call [deposit(amount, duration)], whatever the
    token; the call carries [amount] as its [value] exactly when the token
    is ["ETH"], and carries no extra field otherwise. *)
Theorem deposit_value_iff_eth (self : TEthfinexToken.t) (amount : Wad.t) (duration : Z) :
  let tx := TEthfinexToken.deposit self amount duration in
  TEthfinexToken.function_name tx = "deposit" /\
  TEthfinexToken.parameters tx = [Wad.value amount; duration] /\
  (TEthfinexToken.extra tx = [("value", Wad.value amount)]
   <-> TEthfinexToken.token self = "ETH") /\
  (TEthfinexToken.extra tx = [] <-> TEthfinexToken.token self <> "ETH").
Proof.
  unfold TEthfinexToken.deposit.
  destruct (String.eqb_spec (TEthfinexToken.token self) "ETH") as [He | Hne];
    cbn [TEthfinexToken.function_name TEthfinexToken.parameters TEthfinexToken.extra].
  - repeat split; try easy.
  - repeat split; try easy.
Qed.

(** ** TEthfinexApi._result *)

(** C6: a response that is not [ok] raises the error whose message starts
    with "Ethfinex API invalid HTTP response: " and ends with the response
    summary; an [ok] response whose body is not JSON raises the error that
    starts with "Ethfinex API invalid JSON response: " and ends with the same
    summary; any other response yields its decoded JSON.  The two errors are
    never the same, whatever the summaries. *)
Theorem result_cases (A : Type) (response : Response A) :
  (ok response = false ->
   TEthfinexApi._result response
   = Raise (Exception ("Ethfinex API invalid HTTP response: " ++ summary response))) /\
  (ok response = true -> json_value response = None ->
   TEthfinexApi._result response
   = Raise (Exception ("Ethfinex API invalid JSON response: " ++ summary response))) /\
  (forall data : A,
     ok response = true -> json_value response = Some data ->
     TEthfinexApi._result response = Ok data) /\
  (forall s s' : string,
     Exception ("Ethfinex API invalid HTTP response: " ++ s)
     <> Exception ("Ethfinex API invalid JSON response: " ++ s')).
Proof.
  unfold TEthfinexApi._result.
  split; [| split; [| split]].
  - intros ->. reflexivity.
  - intros -> ->. reflexivity.
  - intros data -> ->. reflexivity.
  - intros s s'. cbn. discriminate.
Qed.

Lemma result_cases_witness :
  TEthfinexApi._result (mkResponse false (Some JNull) "500 Internal Server Error")
  = Raise (Exception
      "Ethfinex API invalid HTTP response: 500 Internal Server Error") /\
  TEthfinexApi._result (mkResponse true (@None json) "200 OK (<html>)")
  = Raise (Exception "Ethfinex API invalid JSON response: 200 OK (<html>)") /\
  TEthfinexApi._result (mkResponse true (Some (JArr [JInt 42])) "200 OK")
  = Ok (JArr [JInt 42]).
Proof.
  split; [| split].
  - apply (proj1 (result_cases json (mkResponse false (Some JNull) _))). reflexivity.
  - apply (proj1 (proj2 (result_cases json (mkResponse true None _)))); reflexivity.
  - apply (proj1 (proj2 (proj2 (result_cases json (mkResponse true (Some (JArr [JInt 42])) _)))));
      reflexivity.
Defined.

(** ** TEthfinexApi: the read operations *)

Lemma mapM_Forall2 {A B} (f : A -> result B) (l : list A) (l' : list B) :
  mapM f l = Ok l' -> Forall2 (fun x y => f x = Ok y) l l'.
Proof.
  revert l'. induction l as [| x tl IH]; intros l'; cbn.
  - intros [= <-]. constructor.
  - destruct (f x) as [y |] eqn:Hx; cbn; [| discriminate].
    destruct (mapM f tl) as [ys |]; cbn; [| discriminate].
    intros [= <-]. constructor; [exact Hx | apply IH; reflexivity].
Qed.

Lemma to_trade_pair (parse : string -> option Z) (raw : RawTrade.t) (t : Trade.t) :
  Trade.to_trade parse raw = Ok t -> Trade.pair t = RawTrade.pair raw.
Proof.
  unfold Trade.to_trade.
  destruct (Trade.parse_timestamp _ _); cbn [rbind]; [| discriminate].
  destruct (Wad.div _ _); cbn [rbind]; [| discriminate].
  intros [= <-]. reflexivity.
Qed.

(** The one request of [get_trades]: a signed POST to the order history. *)
Lemma get_trades_requests
    (w : TEthfinexApi.World) (self : TEthfinexApi.t) (pair : string) :
  requests_of (events (TEthfinexApi.get_trades w self pair 1))
  = [mkRequest POST
       (TEthfinexApi.api_server self ++ "/trustless/v1/r/orders/hist")
       (Some (JObj [("protocol", JStr "0x");
                    ("nonce", JStr (TEthfinexApi.nonce_now w));
                    ("signature",
                     JStr (TEthfinexApi.eth_sign w (TEthfinexApi.nonce_now w)))]))
       (TEthfinexApi.timeout self)].
Proof.
  unfold TEthfinexApi.get_trades, TEthfinexApi._get_orders,
    TEthfinexApi._http_post. cbn.
  destruct (TEthfinexApi._result _) as [raws |]; reflexivity.
Qed.

(** The one request of [get_all_trades]: a GET of the pair's public trades. *)
Lemma get_all_trades_requests
    (w : TEthfinexApi.World) (self : TEthfinexApi.t) (pair : string) :
  requests_of (events (TEthfinexApi.get_all_trades w self pair 1))
  = [mkRequest GET
       (TEthfinexApi.api_server self ++ "/v1/trades/" ++ pair)
       None
       (TEthfinexApi.timeout self)].
Proof.
  unfold TEthfinexApi.get_all_trades, TEthfinexApi._http_get. cbn.
  destruct (TEthfinexApi._result _) as [raws |]; reflexivity.
Qed.

(** C7: with a page number other than 1, [get_trades] and [get_all_trades]
    raise an assertion error and no event, hence no HTTP request, has
    happened; with page number 1 the check passes and each goes on to make
    its one request. *)
Theorem page_number_must_be_one
    (w : TEthfinexApi.World) (self : TEthfinexApi.t) (pair : string) :
  (forall page_number : Z,
     page_number <> 1 ->
     TEthfinexApi.get_trades w self pair page_number = ([], Raise AssertionError) /\
     TEthfinexApi.get_all_trades w self pair page_number = ([], Raise AssertionError)) /\
  requests_of (events (TEthfinexApi.get_trades w self pair 1))
  = [mkRequest POST
       (TEthfinexApi.api_server self ++ "/trustless/v1/r/orders/hist")
       (Some (JObj [("protocol", JStr "0x");
                    ("nonce", JStr (TEthfinexApi.nonce_now w));
                    ("signature",
                     JStr (TEthfinexApi.eth_sign w (TEthfinexApi.nonce_now w)))]))
       (TEthfinexApi.timeout self)] /\
  requests_of (events (TEthfinexApi.get_all_trades w self pair 1))
  = [mkRequest GET
       (TEthfinexApi.api_server self ++ "/v1/trades/" ++ pair)
       None
       (TEthfinexApi.timeout self)].
Proof.
  split; [| split].
  - intros page_number Hp.
    unfold TEthfinexApi.get_trades, TEthfinexApi.get_all_trades, assert.
    destruct (Z.eqb_spec page_number 1) as [H1 | _]; [contradiction |].
    split; reflexivity.
  - apply get_trades_requests.
  - apply get_all_trades_requests.
Qed.

Lemma page_number_must_be_one_witness :
  TEthfinexApi.get_trades (sample_world (mkResponse true None "")) sample_api "ETHUSD" 2
  = ([], Raise AssertionError) /\
  TEthfinexApi.get_all_trades (sample_world (mkResponse true None "")) sample_api "ETHUSD" 2
  = ([], Raise AssertionError).
Proof.
  apply (proj1 (page_number_must_be_one
                  (sample_world (mkResponse true None "")) sample_api "ETHUSD")).
  lia.
Defined.

(** C9: [get_trades] does not depend on its [pair] argument.  For any two
    pairs it causes the same events and has the same outcome; its one request
    goes to the order-history endpoint, whose address does not mention the
    pair; and the trades it returns are, in order, the [to_trade] images of
    the entries whose status contains "EXECUTED", each carrying the pair of
    its raw entry. *)
Theorem get_trades_ignores_pair
    (w : TEthfinexApi.World) (self : TEthfinexApi.t) (p1 p2 : string) :
  let request :=
    mkRequest POST
      (TEthfinexApi.api_server self ++ "/trustless/v1/r/orders/hist")
      (Some (JObj [("protocol", JStr "0x");
                   ("nonce", JStr (TEthfinexApi.nonce_now w));
                   ("signature",
                    JStr (TEthfinexApi.eth_sign w (TEthfinexApi.nonce_now w)))]))
      (TEthfinexApi.timeout self) in
  (forall page_number : Z,
     TEthfinexApi.get_trades w self p1 page_number
     = TEthfinexApi.get_trades w self p2 page_number) /\
  requests_of (events (TEthfinexApi.get_trades w self p1 1)) = [request] /\
  (forall trades : list Trade.t,
     outcome (TEthfinexApi.get_trades w self p1 1) = Ok trades ->
     exists raws : list RawTrade.t,
       json_value (TEthfinexApi.requests_post_history w request) = Some raws /\
       Forall2
         (fun raw t =>
            Trade.to_trade (TEthfinexApi.dateutil_timestamp w) raw = Ok t /\
            Trade.pair t = RawTrade.pair raw)
         (filter (fun raw => contains "EXECUTED" (RawTrade.status raw)) raws)
         trades).
Proof.
  intros request. split; [| split].
  - intros page_number. reflexivity.
  - apply get_trades_requests.
  - intros trades.
    unfold TEthfinexApi.get_trades, TEthfinexApi._get_orders,
      TEthfinexApi._http_post. cbn. fold request.
    unfold TEthfinexApi._result.
    destruct (ok (TEthfinexApi.requests_post_history w request)); cbn;
      [| discriminate].
    destruct (json_value (TEthfinexApi.requests_post_history w request))
      as [raws |]; cbn; [| discriminate].
    destruct (mapM _ _) as [ts |] eqn:Hmap; cbn; [| discriminate].
    intros [= <-]. exists raws. split; [reflexivity |].
    apply mapM_Forall2 in Hmap.
    induction Hmap as [| raw t raws' ts' Hraw _ IH]; constructor.
    + split; [exact Hraw | exact (to_trade_pair _ _ _ Hraw)].
    + exact IH.
Qed.

Lemma get_trades_ignores_pair_witness :
  exists raws : list RawTrade.t,
    Some [third_trade; cancelled_trade] = Some raws /\
    Forall2
      (fun raw t =>
         Trade.to_trade sample_timestamp raw = Ok t /\
         Trade.pair t = RawTrade.pair raw)
      (filter (fun raw => contains "EXECUTED" (RawTrade.status raw)) raws)
      [Trade.mk 11 1559390400 true "ETHUSD"
                (Wad.mk 333333333333333333) (Wad.mk 3000000000000000000)].
Proof.
  apply (proj2 (proj2 (get_trades_ignores_pair
                         (sample_world (mkResponse true None ""))
                         sample_api "ZRXETH" "ETHUSD"))).
  vm_compute. reflexivity.
Defined.

(** ** TEthfinexApi: the write operations *)

(** Selling 600 for 3 at the sample exchange: the log line, the request and
    the log line of the answer. *)
Example place_order_sell_events :
  TEthfinexApi.place_order (sample_world accepted_answer) sample_api
    true "0xweth" (Wad.mk (3 * 10 ^ 18)) "0xdai" (Wad.mk (600 * 10 ^ 18))
    "0xfee" "ETHUSD"
  = ([Log (PlacingOrder "SELL" "600.000000000000000000" "ETHUSD"
             "0.005000000000000000");
      Http (mkRequest POST "https://api.example/trustless/v1/w/on"
              (Some (JObj [("type", JStr "EXCHANGE LIMIT");
                           ("symbol", JStr "tETHUSD");
                           ("amount", JStr "600.000000000000000000");
                           ("price", JStr "0.005000000000000000");
                           ("meta", JObj [("maker", JStr "0xmaker");
                                          ("salt", JInt 12345)]);
                           ("protocol", JStr "0x")]))
              (mkNumber 95 (-1)));
      Log (PlacedOrder (JInt 4711))],
     Ok (JInt 4711)).
Proof. vm_compute. reflexivity. Qed.

(** Buying 3 for 600: the amount is the pay amount with a minus sign. *)
Example place_order_buy_amount :
  requests_of (events
    (TEthfinexApi.place_order (sample_world accepted_answer) sample_api
       false "0xdai" (Wad.mk (600 * 10 ^ 18)) "0xweth" (Wad.mk (3 * 10 ^ 18))
       "0xfee" "ETHUSD"))
  = [mkRequest POST "https://api.example/trustless/v1/w/on"
       (Some (JObj [("type", JStr "EXCHANGE LIMIT");
                    ("symbol", JStr "tETHUSD");
                    ("amount", JStr "-600.000000000000000000");
                    ("price", JStr "0.005000000000000000");
                    ("meta", JObj [("maker", JStr "0xmaker");
                                   ("salt", JInt 12345)]);
                    ("protocol", JStr "0x")]))
       (mkNumber 95 (-1))].
Proof. vm_compute. reflexivity. Qed.

(** What [cancel_order] requests and what it returns. *)
Lemma cancel_order_unfold
    (w : TEthfinexApi.World) (self : TEthfinexApi.t) (order_id : Z) :
  let request :=
    mkRequest POST
      (TEthfinexApi.api_server self ++ "/trustless/v1/w/oc")
      (Some (JObj [("orderId", JStr (str_int order_id));
                   ("protocol", JStr "0x");
                   ("signature", JStr (TEthfinexApi.eth_sign w (str_int order_id)))]))
      (TEthfinexApi.timeout self) in
  let m := TEthfinexApi.cancel_order w self order_id in
  requests_of (events m) = [request] /\
  outcome m
  = (data <- TEthfinexApi._result (TEthfinexApi.requests_post w request) ;;
     first <- getitem0 data ;;
     Ok (eq_int first order_id))%result.
Proof.
  intros request m. unfold m, TEthfinexApi.cancel_order, TEthfinexApi._http_post.
  cbn. fold request.
  destruct (TEthfinexApi._result _) as [data |]; cbn; [| split; reflexivity].
  destruct (getitem0 data) as [first |]; cbn; [| split; reflexivity].
  destruct (eq_int first order_id); cbn; split; reflexivity.
Qed.

(** What [place_order] requests and returns once its price is computed. *)
Lemma place_order_unfold
    (w : TEthfinexApi.World) (self : TEthfinexApi.t)
    (is_sell : bool) (pay_token : string) (pay_amount : Wad.t)
    (buy_token : string) (buy_amount : Wad.t) (fee_address pair : string)
    (price : Wad.t) :
  let m := TEthfinexApi.place_order w self is_sell pay_token pay_amount
             buy_token buy_amount fee_address pair in
  let order :=
    ZrxOrder.mk (default_account (TEthfinexApi.tethfinex self))
                fee_address (Wad.mk 0) (Wad.mk 0)
                pay_token
                (if is_sell then Wad.mul price buy_amount else pay_amount)
                buy_token
                (if is_sell then buy_amount else Wad.mul price pay_amount)
                (random_salt (TEthfinexApi.tethfinex self))
                fee_address
                (TEthfinexApi.strftime_s w (TEthfinexApi.today w + 6 * 3600))
                (address (TEthfinexApi.tethfinex self))
                None None None in
  let request :=
    mkRequest POST
      (TEthfinexApi.api_server self ++ "/trustless/v1/w/on")
      (Some (JObj [("type", JStr "EXCHANGE LIMIT");
                   ("symbol", JStr ("t" ++ pair));
                   ("amount", JStr (if is_sell then Wad.str buy_amount
                                    else "-" ++ Wad.str pay_amount));
                   ("price", JStr (Wad.str price));
                   ("meta", TEthfinexApi.to_json w
                              (sign_order (TEthfinexApi.tethfinex self) order));
                   ("protocol", JStr "0x")]))
      (TEthfinexApi.timeout self) in
  (if is_sell then Wad.div pay_amount buy_amount
   else Wad.div buy_amount pay_amount) = Ok price ->
  requests_of (events m) = [request] /\
  outcome m
  = (data <- TEthfinexApi._result (TEthfinexApi.requests_post w request) ;;
     getitem0 data)%result.
Proof.
  intros m order request Hd.
  unfold m, TEthfinexApi.place_order, TEthfinexApi._http_post,
    TEthfinexApi.place_order_data.
  destruct is_sell; rewrite Hd; cbn; fold request.
  all: destruct (TEthfinexApi._result _) as [data |]; cbn; [| split; reflexivity].
  all: destruct (getitem0 data) as [first |]; cbn; split; reflexivity.
Qed.

(** C3, as stated, fails for two kinds of call.  Selling for a
    [buy_amount] of 0 has no price: the call raises the arithmetic error and
    sends no payload at all.  And when the server answers with the empty
    array, the payload is sent but there is no first element to return: the
    call raises an index error. *)
Lemma place_order_without_price_or_answer :
  TEthfinexApi.place_order (sample_world accepted_answer) sample_api
    true "0xweth" (Wad.mk (3 * 10 ^ 18)) "0xdai" (Wad.mk 0) "0xfee" "ETHUSD"
  = ([], Raise ArithmeticError) /\
  outcome (TEthfinexApi.place_order (sample_world empty_answer) sample_api
             true "0xweth" (Wad.mk (3 * 10 ^ 18)) "0xdai" (Wad.mk (600 * 10 ^ 18))
             "0xfee" "ETHUSD")
  = Raise IndexError.
Proof. split; vm_compute; reflexivity. Qed.

(** C3 (amended): for every call whose price divisor ([buy_amount] when
    selling, [pay_amount] otherwise) is not zero, [place_order] makes one
    request, a POST to the order-placement endpoint whose payload has type
    "EXCHANGE LIMIT", symbol "t" + pair, protocol "0x", amount
    [str(buy_amount)] when selling and "-" + [str(pay_amount)] otherwise, as
    price the string of [pay_amount / buy_amount] when selling and of
    [buy_amount / pay_amount] otherwise, and as meta the JSON form of the
    signed order; it returns, or raises, what taking element 0 of the decoded
    response gives, so the first element whenever the response is a success
    with a JSON array that is not empty.  With a zero divisor the call raises
    the arithmetic error and nothing is sent. *)
Theorem place_order_payload
    (w : TEthfinexApi.World) (self : TEthfinexApi.t)
    (is_sell : bool) (pay_token : string) (pay_amount : Wad.t)
    (buy_token : string) (buy_amount : Wad.t) (fee_address pair : string) :
  let m := TEthfinexApi.place_order w self is_sell pay_token pay_amount
             buy_token buy_amount fee_address pair in
  let dividend := if is_sell then pay_amount else buy_amount in
  let divisor := if is_sell then buy_amount else pay_amount in
  (Wad.value divisor <> 0 ->
   exists price : Wad.t,
     Wad.div dividend divisor = Ok price /\
     let order :=
       ZrxOrder.mk (default_account (TEthfinexApi.tethfinex self))
                   fee_address (Wad.mk 0) (Wad.mk 0)
                   pay_token
                   (if is_sell then Wad.mul price buy_amount else pay_amount)
                   buy_token
                   (if is_sell then buy_amount else Wad.mul price pay_amount)
                   (random_salt (TEthfinexApi.tethfinex self))
                   fee_address
                   (TEthfinexApi.strftime_s w (TEthfinexApi.today w + 6 * 3600))
                   (address (TEthfinexApi.tethfinex self))
                   None None None in
     let request :=
       mkRequest POST
         (TEthfinexApi.api_server self ++ "/trustless/v1/w/on")
         (Some (JObj [("type", JStr "EXCHANGE LIMIT");
                      ("symbol", JStr ("t" ++ pair));
                      ("amount", JStr (if is_sell then Wad.str buy_amount
                                       else "-" ++ Wad.str pay_amount));
                      ("price", JStr (Wad.str price));
                      ("meta", TEthfinexApi.to_json w
                                 (sign_order (TEthfinexApi.tethfinex self) order));
                      ("protocol", JStr "0x")]))
         (TEthfinexApi.timeout self) in
     requests_of (events m) = [request] /\
     outcome m
     = (data <- TEthfinexApi._result (TEthfinexApi.requests_post w request) ;;
        getitem0 data)%result /\
     (forall (first : json) (rest : list json) (s : string),
        TEthfinexApi.requests_post w request
        = mkResponse true (Some (JArr (first :: rest))) s ->
        outcome m = Ok first)) /\
  (Wad.value divisor = 0 -> m = ([], Raise ArithmeticError)).
Proof.
  intros m dividend divisor. split.
  - intros Hdivisor.
    pose proof (div_nonzero dividend divisor Hdivisor) as Hdiv.
    set (price := Wad.mk (Z.quot (Wad.value dividend * Wad.WAD) (Wad.value divisor))) in *.
    assert ((if is_sell then Wad.div pay_amount buy_amount
             else Wad.div buy_amount pay_amount) = Ok price) as Hq
      by (unfold dividend, divisor in Hdiv; destruct is_sell; exact Hdiv).
    exists price. split; [exact Hdiv |]. intros order request.
    destruct (place_order_unfold w self is_sell pay_token pay_amount buy_token
                buy_amount fee_address pair price Hq) as [Hreq Hout].
    fold m in Hreq, Hout. fold order in Hreq, Hout. fold request in Hreq, Hout.
    split; [exact Hreq |]. split; [exact Hout |].
    intros first rest s Hresp. rewrite Hout, Hresp. reflexivity.
  - intros Hdivisor.
    pose proof (div_zero dividend divisor Hdivisor) as Hdiv.
    unfold m, TEthfinexApi.place_order.
    unfold dividend, divisor in Hdiv. destruct is_sell; cbn; rewrite Hdiv; reflexivity.
Qed.

Lemma place_order_payload_witness :
  outcome (TEthfinexApi.place_order (sample_world accepted_answer) sample_api
             true "0xweth" (Wad.mk (3 * 10 ^ 18)) "0xdai" (Wad.mk (600 * 10 ^ 18))
             "0xfee" "ETHUSD")
  = Ok (JInt 4711).
Proof.
  assert (Wad.value (Wad.mk (600 * 10 ^ 18)) <> 0) as Hdivisor
    by (vm_compute; discriminate).
  destruct (proj1 (place_order_payload (sample_world accepted_answer) sample_api
                     true "0xweth" (Wad.mk (3 * 10 ^ 18)) "0xdai"
                     (Wad.mk (600 * 10 ^ 18)) "0xfee" "ETHUSD") Hdivisor)
    as [price [_ [_ [_ Hfirst]]]].
  apply (Hfirst (JInt 4711) [JStr "tETHUSD"] "200 OK").
  reflexivity.
Defined.

(** C4, as stated, fails: the empty array is a response that parses as JSON,
    yet [cancel_order] neither returns true nor false on it; taking its
    element 0 raises an index error. *)
Lemma cancel_order_empty_answer_raises :
  ok empty_answer = true /\
  json_value empty_answer = Some (JArr []) /\
  TEthfinexApi.cancel_order (sample_world empty_answer) sample_api 42
  = ([Log (CancellingOrder 42);
      Http (mkRequest POST "https://api.example/trustless/v1/w/oc"
              (Some (JObj [("orderId", JStr "42");
                           ("protocol", JStr "0x");
                           ("signature", JStr "signed:42")]))
              (mkNumber 95 (-1)))],
     Raise IndexError).
Proof. repeat split; vm_compute; reflexivity. Qed.

(** C4 (amended): [cancel_order] makes one POST to the cancellation endpoint
    and returns, or raises, what taking element 0 of the decoded response and
    comparing it with [order_id] gives.  For every response that parses as a
    JSON array with at least one element it returns a boolean, true exactly
    when the first element equals [order_id]: the echoed id gives true, any
    other integer gives false. *)
Theorem cancel_order_true_iff_echo
    (w : TEthfinexApi.World) (self : TEthfinexApi.t) (order_id : Z) :
  let request :=
    mkRequest POST
      (TEthfinexApi.api_server self ++ "/trustless/v1/w/oc")
      (Some (JObj [("orderId", JStr (str_int order_id));
                   ("protocol", JStr "0x");
                   ("signature", JStr (TEthfinexApi.eth_sign w (str_int order_id)))]))
      (TEthfinexApi.timeout self) in
  let m := TEthfinexApi.cancel_order w self order_id in
  requests_of (events m) = [request] /\
  outcome m
  = (data <- TEthfinexApi._result (TEthfinexApi.requests_post w request) ;;
     first <- getitem0 data ;;
     Ok (eq_int first order_id))%result /\
  (forall (first : json) (rest : list json) (s : string),
     TEthfinexApi.requests_post w request
     = mkResponse true (Some (JArr (first :: rest))) s ->
     outcome m = Ok (eq_int first order_id) /\
     (outcome m = Ok true <-> eq_int first order_id = true) /\
     (first = JInt order_id -> outcome m = Ok true) /\
     (forall z : Z, first = JInt z -> z <> order_id -> outcome m = Ok false)).
Proof.
  intros request m.
  destruct (cancel_order_unfold w self order_id) as [Hreq Hout].
  fold request in Hreq, Hout. fold m in Hreq, Hout.
  split; [exact Hreq |]. split; [exact Hout |].
  intros first rest s Hresp.
  assert (outcome m = Ok (eq_int first order_id)) as Hm
    by (rewrite Hout, Hresp; reflexivity).
  split; [exact Hm |]. rewrite Hm. split; [| split].
  - split; [intros [= ->] | intros ->]; reflexivity.
  - intros ->. cbn. rewrite Z.eqb_refl. reflexivity.
  - intros z -> Hz. cbn. apply Z.eqb_neq in Hz. rewrite Hz. reflexivity.
Qed.

Lemma cancel_order_true_iff_echo_witness :
  outcome (TEthfinexApi.cancel_order (sample_world accepted_answer) sample_api 4711)
  = Ok true /\
  outcome (TEthfinexApi.cancel_order (sample_world accepted_answer) sample_api 42)
  = Ok false.
Proof.
  split.
  - destruct (cancel_order_true_iff_echo (sample_world accepted_answer) sample_api 4711)
      as [_ [_ Hecho]].
    destruct (Hecho (JInt 4711) [JStr "tETHUSD"] "200 OK" eq_refl) as [_ [_ [Htrue _]]].
    apply Htrue. reflexivity.
  - destruct (cancel_order_true_iff_echo (sample_world accepted_answer) sample_api 42)
      as [_ [_ Hecho]].
    destruct (Hecho (JInt 4711) [JStr "tETHUSD"] "200 OK" eq_refl) as [_ [_ [_ Hfalse]]].
    apply (Hfalse 4711); [reflexivity | lia].
Defined.

(** * Further properties of the value objects *)

Lemma to_order_Ok_inv (pair : string) (raw : RawOrder.t) (o : Order.t) :
  Order.to_order pair raw = Ok o ->
  let amount := Wad.abs (Wad.from_number (RawOrder.amount raw)) in
  let quote := Wad.mul amount (Wad.from_number (RawOrder.price raw)) in
  Wad.value quote <> 0 /\
  o = Order.mk (RawOrder.id raw) pair
        (if Wad.gt (Wad.from_number (RawOrder.amount raw)) (Wad.mk 0)
         then true else false)
        (Wad.mk (Z.quot (Wad.value amount * Wad.WAD) (Wad.value quote)))
        quote.
Proof.
  intros H amount quote. unfold Order.to_order in H.
  fold amount in H. fold quote in H.
  destruct (Wad.div amount quote) as [q |] eqn:Hd; cbn [rbind] in H; [| discriminate].
  apply div_Ok_inv in Hd. destruct Hd as [Hq ->].
  injection H as <-. split; [exact Hq | reflexivity].
Qed.

Lemma from_number_nonneg (n : number) :
  0 <= mant n -> 0 <= Wad.value (Wad.from_number n).
Proof.
  intros Hm. unfold Wad.from_number. cbn [Wad.value].
  destruct (Z.leb_spec 0 (expo n + 18)) as [Hs | Hs].
  - pose proof (pow10_pos _ Hs). nia.
  - apply Z.quot_pos; [exact Hm | apply pow10_pos; lia].
Qed.

Lemma from_number_opp (m e : Z) :
  Wad.value (Wad.from_number (mkNumber (- m) e))
  = - Wad.value (Wad.from_number (mkNumber m e)).
Proof.
  unfold Wad.from_number. cbn [Wad.value mant expo].
  destruct (Z.leb_spec 0 (e + 18)) as [Hs | Hs].
  - lia.
  - apply Z.quot_opp_l. apply Z.pow_nonzero; [discriminate | lia].
Qed.

(** X1: The amount and the price of an order do not depend on the side: the
    raw orders of amounts [m * 10^e] and [- m * 10^e] at the same price give
    orders that differ in [is_sell] only. *)
Theorem to_order_side_symmetry
    (pair : string) (id m e : Z) (price : number) (o : Order.t) :
  Order.to_order pair (RawOrder.mk id (mkNumber m e) price) = Ok o ->
  Order.to_order pair (RawOrder.mk id (mkNumber (- m) e) price)
  = Ok (Order.mk (Order.order_id o) (Order.pair o) (negb (Order.is_sell o))
                 (Order.price o) (Order.amount o)).
Proof.
  intros H. apply to_order_Ok_inv in H. cbn [RawOrder.amount RawOrder.price RawOrder.id] in H.
  destruct H as [Hq ->].
  cbn [Order.order_id Order.pair Order.is_sell Order.price Order.amount].
  assert (Wad.abs (Wad.from_number (mkNumber (- m) e))
          = Wad.abs (Wad.from_number (mkNumber m e))) as Habs.
  { unfold Wad.abs. rewrite from_number_opp, Z.abs_opp. reflexivity. }
  assert (Wad.value (Wad.from_number (mkNumber m e)) <> 0) as Hm.
  { apply mul_nonzero_l in Hq. unfold Wad.abs in Hq. cbn [Wad.value] in Hq. lia. }
  unfold Order.to_order. cbn [RawOrder.amount RawOrder.price RawOrder.id].
  rewrite Habs. rewrite (div_nonzero _ _ Hq). cbn [rbind].
  do 2 f_equal. unfold Wad.gt. cbn [Wad.value]. rewrite from_number_opp.
  destruct (Z.ltb_spec 0 (Wad.value (Wad.from_number (mkNumber m e))));
    destruct (Z.ltb_spec 0 (- Wad.value (Wad.from_number (mkNumber m e))));
    cbn; try reflexivity; lia.
Qed.

Lemma to_order_side_symmetry_witness :
  Order.to_order "ETHUSD" (RawOrder.mk 8 (mkNumber (- -25) (-1)) (mkNumber 200 0))
  = Ok (Order.mk 8 "ETHUSD" true (Wad.mk 5000000000000000)
                 (Wad.mk 500000000000000000000)).
Proof.
  apply (to_order_side_symmetry "ETHUSD" 8 (-25) (-1) (mkNumber 200 0)
           (Order.mk 8 "ETHUSD" false (Wad.mk 5000000000000000)
                     (Wad.mk 500000000000000000000))).
  vm_compute. reflexivity.
Defined.

(** X2: For a raw price that is not negative, the order [to_order] returns has a
    positive [amount] and a [price] that is not negative. *)
Theorem to_order_nonnegative (pair : string) (raw : RawOrder.t) (o : Order.t) :
  0 <= mant (RawOrder.price raw) ->
  Order.to_order pair raw = Ok o ->
  0 < Wad.value (Order.amount o) /\ 0 <= Wad.value (Order.price o).
Proof.
  intros Hp H. apply to_order_Ok_inv in H. destruct H as [Hq ->].
  cbn [Order.amount Order.price Wad.value].
  pose proof (from_number_nonneg _ Hp) as Hprice.
  pose proof WAD_pos as HW.
  assert (0 <= Wad.value
                 (Wad.mul (Wad.abs (Wad.from_number (RawOrder.amount raw)))
                          (Wad.from_number (RawOrder.price raw)))) as Hnn.
  { unfold Wad.mul, Wad.abs. cbn [Wad.value]. apply Z.quot_pos; [| exact HW].
    apply Z.mul_nonneg_nonneg; [apply Z.abs_nonneg | exact Hprice]. }
  split; [lia |].
  apply Z.quot_pos; [| lia].
  unfold Wad.abs. cbn [Wad.value]. apply Z.mul_nonneg_nonneg; [apply Z.abs_nonneg | lia].
Qed.

Lemma to_order_nonnegative_witness :
  0 < Wad.value (Order.amount
                   (Order.mk 8 "ETHUSD" false (Wad.mk 5000000000000000)
                             (Wad.mk 500000000000000000000))) /\
  0 <= Wad.value (Order.price
                    (Order.mk 8 "ETHUSD" false (Wad.mk 5000000000000000)
                              (Wad.mk 500000000000000000000))).
Proof.
  apply (to_order_nonnegative "ETHUSD" sample_order).
  - vm_compute. discriminate.
  - vm_compute. reflexivity.
Defined.

(** X3: Of the two remaining amounts of an order returned by [to_order], the
    one on the order's own side is the quote amount [abs(amount) * price]; the
    other one, [amount * price] of the order, gives back [abs(raw.amount)] up
    to rounding: the two differ by less than [abs(quote) * 10^-18 + 1] units
    of [10^-18]. *)
Theorem to_order_remaining_amounts (pair : string) (raw : RawOrder.t) (o : Order.t) :
  Order.to_order pair raw = Ok o ->
  let amount := Wad.abs (Wad.from_number (RawOrder.amount raw)) in
  let quote := Wad.mul amount (Wad.from_number (RawOrder.price raw)) in
  let own := if Order.is_sell o then Order.remaining_sell_amount o
             else Order.remaining_buy_amount o in
  let other := if Order.is_sell o then Order.remaining_buy_amount o
               else Order.remaining_sell_amount o in
  own = quote /\
  Z.abs (Wad.value amount - Wad.value other) * Wad.WAD
  < Z.abs (Wad.value quote) + Wad.WAD.
Proof.
  intros H amount quote. apply to_order_Ok_inv in H.
  fold amount in H. fold quote in H. destruct H as [Hq ->].
  unfold Order.remaining_sell_amount, Order.remaining_buy_amount.
  cbn [Order.is_sell Order.amount Order.price].
  assert (Z.abs (Wad.value amount
                 - Wad.value (Wad.mul quote
                     (Wad.mk (Z.quot (Wad.value amount * Wad.WAD) (Wad.value quote)))))
          * Wad.WAD < Z.abs (Wad.value quote) + Wad.WAD) as Hbound.
  { unfold Wad.mul at 1. cbn [Wad.value]. rewrite Z.mul_comm.
    rewrite (Z.mul_comm (Wad.value quote)). rewrite Z.mul_comm.
    apply div_mul_error. exact Hq. }
  destruct (Wad.gt _ _); cbn zeta; split; (reflexivity || exact Hbound).
Qed.

Lemma to_order_remaining_amounts_witness :
  let amount := Wad.abs (Wad.from_number (RawOrder.amount sample_order)) in
  let quote := Wad.mul amount (Wad.from_number (RawOrder.price sample_order)) in
  let o := Order.mk 8 "ETHUSD" false (Wad.mk 5000000000000000)
                    (Wad.mk 500000000000000000000) in
  let own := if Order.is_sell o then Order.remaining_sell_amount o
             else Order.remaining_buy_amount o in
  let other := if Order.is_sell o then Order.remaining_buy_amount o
               else Order.remaining_sell_amount o in
  own = quote /\
  Z.abs (Wad.value amount - Wad.value other) * Wad.WAD
  < Z.abs (Wad.value quote) + Wad.WAD.
Proof.
  apply (to_order_remaining_amounts "ETHUSD" sample_order).
  vm_compute. reflexivity.
Defined.

Lemma to_trade_Ok_inv (parse : string -> option Z) (raw : RawTrade.t) (t : Trade.t) :
  Trade.to_trade parse raw = Ok t ->
  let amount_orig := Wad.from_number (RawTrade.amount_orig raw) in
  let total := Wad.mul (Wad.from_number (RawTrade.price raw)) amount_orig in
  Wad.value total <> 0 /\
  exists ts : Z,
    parse (RawTrade.updated_at raw ++ "Z") = Some ts /\
    t = Trade.mk (RawTrade.id raw) ts
          (if Wad.gt amount_orig (Wad.mk 0) then true else false)
          (RawTrade.pair raw)
          (Wad.mk (Z.quot (Wad.value amount_orig * Wad.WAD) (Wad.value total)))
          (Wad.abs total).
Proof.
  intros H amount_orig total. unfold Trade.to_trade, Trade.parse_timestamp in H.
  fold amount_orig in H. fold total in H.
  destruct (parse _) as [ts |] eqn:Hts; cbn [rbind] in H; [| discriminate].
  destruct (Wad.div amount_orig total) as [q |] eqn:Hd; cbn [rbind] in H; [| discriminate].
  apply div_Ok_inv in Hd. destruct Hd as [Ht ->].
  injection H as <-. split; [exact Ht |]. exists ts. split; reflexivity.
Qed.

(** X4: Every trade [to_trade] returns has a positive [amount], whatever the
    signs in the raw entry, and [is_sell] set exactly for a positive raw
    [amount_orig]; for a raw price that is not negative its [price] is not
    negative either. *)
Theorem to_trade_signs (parse : string -> option Z) (raw : RawTrade.t) (t : Trade.t) :
  Trade.to_trade parse raw = Ok t ->
  0 < Wad.value (Trade.amount t) /\
  Trade.is_sell t = number_pos (RawTrade.amount_orig raw) /\
  (0 <= mant (RawTrade.price raw) -> 0 <= Wad.value (Trade.price t)).
Proof.
  intros H. apply to_trade_Ok_inv in H. destruct H as [Ht [ts [_ ->]]].
  cbn [Trade.amount Trade.is_sell Trade.price].
  pose proof WAD_pos as HW.
  split; [| split].
  - unfold Wad.abs. cbn [Wad.value]. lia.
  - rewrite from_number_sign.
    + destruct (number_pos _); reflexivity.
    + apply mul_nonzero_r in Ht. exact Ht.
  - intros Hp. pose proof (from_number_nonneg _ Hp) as Hprice.
    cbn [Wad.value].
    set (a := Wad.value (Wad.from_number (RawTrade.amount_orig raw))) in *.
    set (p := Wad.value (Wad.from_number (RawTrade.price raw))) in *.
    unfold Wad.mul in *. cbn [Wad.value] in *. fold a p in Ht |- *.
    destruct (Z.le_gt_cases 0 a) as [Ha | Ha].
    + apply Z.quot_pos; [nia |].
      assert (0 <= Z.quot (p * a) Wad.WAD) by (apply Z.quot_pos; nia). lia.
    + rewrite <- (Z.quot_opp_opp (a * Wad.WAD)) by exact Ht.
      assert (0 <= Z.quot (- (p * a)) Wad.WAD) as Hneg by (apply Z.quot_pos; nia).
      rewrite Z.quot_opp_l in Hneg by lia.
      apply Z.quot_pos; [nia | lia].
Qed.

Lemma to_trade_signs_witness :
  let t := Trade.mk 11 1559390400 true "ETHUSD"
                    (Wad.mk 333333333333333333) (Wad.mk 3000000000000000000) in
  0 < Wad.value (Trade.amount t) /\
  Trade.is_sell t = number_pos (RawTrade.amount_orig third_trade) /\
  (0 <= mant (RawTrade.price third_trade) -> 0 <= Wad.value (Trade.price t)).
Proof.
  apply (to_trade_signs sample_timestamp third_trade).
  vm_compute. reflexivity.
Defined.

Lemma trade_eq_true_iff (t o : Trade.t) :
  Trade.__eq__ t (Trade.PyTrade o) = Ok true <-> t = o.
Proof.
  cbn. split.
  - intros [= H].
    rewrite !andb_true_iff, !Z.eqb_eq, Bool.eqb_true_iff, String.eqb_eq, !Wad_eqb_eq in H.
    destruct t, o; cbn in H. destruct H as [[[[[-> ->] ->] ->] ->] ->]. reflexivity.
  - intros <-. f_equal.
    rewrite !andb_true_iff, !Z.eqb_eq, Bool.eqb_true_iff, String.eqb_eq, !Wad_eqb_eq.
    repeat split.
Qed.

(** X6: Equality of trades is reflexive, symmetric and transitive, and two
    trades that compare equal have the same hash, whatever the builtin
    [hash] is. *)
Theorem trade_eq_equivalence_and_hash
    (hash : Z * Z * bool * string * Wad.t * Wad.t -> Z) (t1 t2 t3 : Trade.t) :
  Trade.__eq__ t1 (Trade.PyTrade t1) = Ok true /\
  Trade.__eq__ t1 (Trade.PyTrade t2) = Trade.__eq__ t2 (Trade.PyTrade t1) /\
  (Trade.__eq__ t1 (Trade.PyTrade t2) = Ok true ->
   Trade.__eq__ t2 (Trade.PyTrade t3) = Ok true ->
   Trade.__eq__ t1 (Trade.PyTrade t3) = Ok true) /\
  (Trade.__eq__ t1 (Trade.PyTrade t2) = Ok true ->
   Trade.__hash__ hash t1 = Trade.__hash__ hash t2).
Proof.
  split; [| split; [| split]].
  - apply trade_eq_true_iff. reflexivity.
  - cbn. f_equal.
    rewrite (Z.eqb_sym (Trade.trade_id t1)), (Z.eqb_sym (Trade.timestamp t1)).
    rewrite (String.eqb_sym (Trade.pair t1)).
    unfold Wad.eqb.
    rewrite (Z.eqb_sym (Wad.value (Trade.price t1))),
            (Z.eqb_sym (Wad.value (Trade.amount t1))).
    destruct (Trade.is_sell t1), (Trade.is_sell t2); reflexivity.
  - rewrite !trade_eq_true_iff. intros -> ->. reflexivity.
  - rewrite trade_eq_true_iff. intros ->. reflexivity.
Qed.

Lemma trade_eq_equivalence_and_hash_witness :
  Trade.__hash__ (fun key => let '(trade_id, _, _, _, _, _) := key in trade_id)
                 (Trade.mk 1 2 true "ETHUSD" (Wad.mk 3) (Wad.mk 4))
  = Trade.__hash__ (fun key => let '(trade_id, _, _, _, _, _) := key in trade_id)
                   (Trade.mk 1 2 true "ETHUSD" (Wad.mk 3) (Wad.mk 4)).
Proof.
  apply (proj2 (proj2 (proj2 (trade_eq_equivalence_and_hash
           (fun key => let '(trade_id, _, _, _, _, _) := key in trade_id)
           (Trade.mk 1 2 true "ETHUSD" (Wad.mk 3) (Wad.mk 4))
           (Trade.mk 1 2 true "ETHUSD" (Wad.mk 3) (Wad.mk 4))
           (Trade.mk 1 2 true "ETHUSD" (Wad.mk 3) (Wad.mk 4)))))).
  reflexivity.
Defined.

(** ** The EXECUTED filter *)

Lemma prefix_app (a b : string) :
  String.prefix a b = true <-> exists post : string, b = a ++ post.
Proof.
  revert b. induction a as [| c a IH]; intros b.
  - split; [intros _; exists b; reflexivity | intros _; destruct b; reflexivity].
  - destruct b as [| d b]; cbn.
    + split; [discriminate | intros [post H]; discriminate].
    + destruct (Ascii.ascii_dec c d) as [-> | Hne].
      * rewrite IH. split; intros [post H]; exists post.
        -- rewrite H. reflexivity.
        -- injection H as ->. reflexivity.
      * split; [discriminate |]. intros [post H]. injection H as H _.
        symmetry in H. contradiction.
Qed.

(** X7: [contains needle s], the test ['EXECUTED' in order['status']] of
    [get_trades], holds exactly when [needle] occurs in [s]: when [s] is some
    text, then [needle], then some text. *)
Theorem contains_iff_occurs (needle s : string) :
  contains needle s = true <->
  exists pre post : string, s = pre ++ needle ++ post.
Proof.
  induction s as [| c s IH]; cbn [contains]; rewrite orb_true_iff, prefix_app.
  - split.
    + intros [[post H] | H]; [| discriminate]. exists "", post. exact H.
    + intros [pre [post H]]. left. destruct pre; cbn in H; [| discriminate].
      exists post. exact H.
  - rewrite IH. split.
    + intros [[post H] | [pre [post H]]].
      * exists "", post. exact H.
      * exists (String c pre), post. cbn. rewrite H. reflexivity.
    + intros [pre [post H]]. destruct pre as [| d pre]; cbn in H.
      * left. exists post. exact H.
      * right. injection H as _ H. exists pre, post. exact H.
Qed.

(** * Further properties of the client *)

Lemma http_post_run {A} (self : TEthfinexApi.t) (post : Request -> Response A)
    (resource : string) (payload : list (string * json)) :
  let request :=
    mkRequest POST (TEthfinexApi.api_server self ++ resource)
              (match payload with [] => None | _ :: _ => Some (JObj payload) end)
              (TEthfinexApi.timeout self) in
  TEthfinexApi._http_post self post resource payload
  = ([Http request], TEthfinexApi._result (post request)).
Proof. destruct payload; reflexivity. Qed.

Lemma mapM_raises {A B} (f : A -> result B) (l : list A) (x : A) :
  In x l -> raises (f x) = true -> raises (mapM f l) = true.
Proof.
  induction l as [| y tl IH]; cbn; [contradiction |].
  intros [-> | Hin] Hx.
  - destruct (f x); [discriminate | reflexivity].
  - destruct (f y); cbn; [| reflexivity].
    specialize (IH Hin Hx). destruct (mapM f tl); [discriminate | reflexivity].
Qed.

Lemma mapM_one_error {A B} (f : A -> result B) (e0 : exn) (l : list A) :
  (forall x e, f x = Raise e -> e = e0) ->
  raises (mapM f l) = true -> mapM f l = Raise e0.
Proof.
  intros Hf. induction l as [| y tl IH]; cbn; [discriminate |].
  destruct (f y) as [b |] eqn:Hy; cbn.
  - destruct (mapM f tl); cbn; [discriminate |].
    intros _. specialize (IH eq_refl). congruence.
  - intros _. rewrite (Hf y e Hy). reflexivity.
Qed.

Lemma mapM_all_Ok {A B} (f : A -> result B) (l : list A) :
  (forall x, In x l -> raises (f x) = false) ->
  exists l' : list B, mapM f l = Ok l' /\ List.length l' = List.length l.
Proof.
  induction l as [| y tl IH]; cbn; intros H.
  - exists []. split; reflexivity.
  - destruct (f y) as [b |] eqn:Hy.
    + destruct IH as [l' [Hl' Hlen]]; [intros x Hx; apply H; right; exact Hx |].
      rewrite Hl'. cbn. exists (b :: l'). cbn. rewrite Hlen. split; reflexivity.
    + specialize (H y (or_introl eq_refl)). rewrite Hy in H. discriminate.
Qed.

Lemma to_order_raises_arithmetic (pair : string) (raw : RawOrder.t) (e : exn) :
  Order.to_order pair raw = Raise e -> e = ArithmeticError.
Proof.
  unfold Order.to_order, Wad.div.
  destruct (_ =? 0); cbn [rbind]; [| discriminate].
  intros [= <-]. reflexivity.
Qed.

(** The envelope signed requests carry: the protocol, the nonce and the
    signature of the nonce. *)
Lemma get_orders_run (w : TEthfinexApi.World) (self : TEthfinexApi.t) (pair : string) :
  let request :=
    mkRequest POST
      (TEthfinexApi.api_server self ++ "/trustless/v1/r/orders/t" ++ pair)
      (Some (JObj [("protocol", JStr "0x");
                   ("nonce", JStr (TEthfinexApi.nonce_now w));
                   ("signature",
                    JStr (TEthfinexApi.eth_sign w (TEthfinexApi.nonce_now w)))]))
      (TEthfinexApi.timeout self) in
  TEthfinexApi.get_orders w self pair
  = ([Http request],
     (result <- TEthfinexApi._result (TEthfinexApi.requests_post_orders w request) ;;
      mapM (Order.to_order pair) result)%result).
Proof.
  intros request. unfold TEthfinexApi.get_orders, TEthfinexApi._get_orders.
  rewrite http_post_run. fold request. cbn.
  destruct (TEthfinexApi._result _); reflexivity.
Qed.

(** X8: [get_orders] makes one signed POST to the order book of the pair; the
    orders it returns are, one for one and in order, the [to_order] images of
    the entries of the response, each with the id of its entry and the
    [pair] that was asked for. *)
Theorem get_orders_shape
    (w : TEthfinexApi.World) (self : TEthfinexApi.t) (pair : string)
    (orders : list Order.t) :
  let request :=
    mkRequest POST
      (TEthfinexApi.api_server self ++ "/trustless/v1/r/orders/t" ++ pair)
      (Some (JObj [("protocol", JStr "0x");
                   ("nonce", JStr (TEthfinexApi.nonce_now w));
                   ("signature",
                    JStr (TEthfinexApi.eth_sign w (TEthfinexApi.nonce_now w)))]))
      (TEthfinexApi.timeout self) in
  outcome (TEthfinexApi.get_orders w self pair) = Ok orders ->
  events (TEthfinexApi.get_orders w self pair) = [Http request] /\
  exists raws : list RawOrder.t,
    json_value (TEthfinexApi.requests_post_orders w request) = Some raws /\
    List.length orders = List.length raws /\
    Forall2
      (fun raw o =>
         Order.to_order pair raw = Ok o /\
         Order.order_id o = RawOrder.id raw /\
         Order.pair o = pair)
      raws orders.
Proof.
  intros request. rewrite get_orders_run. fold request. cbn [outcome events fst snd].
  unfold TEthfinexApi._result.
  destruct (ok (TEthfinexApi.requests_post_orders w request)); cbn; [| discriminate].
  destruct (json_value (TEthfinexApi.requests_post_orders w request)) as [raws |];
    cbn; [| discriminate].
  intros Hmap. split; [reflexivity |]. exists raws. split; [reflexivity |].
  apply mapM_Forall2 in Hmap.
  split; [symmetry; exact (Forall2_length Hmap) |].
  induction Hmap as [| raw o raws' os' Hraw _ IH]; constructor; [| exact IH].
  split; [exact Hraw |].
  apply to_order_Ok_inv in Hraw. destruct Hraw as [_ ->]. split; reflexivity.
Qed.

Lemma get_orders_shape_witness :
  let request :=
    mkRequest POST
      (TEthfinexApi.api_server sample_api ++ "/trustless/v1/r/orders/t" ++ "ETHUSD")
      (Some (JObj [("protocol", JStr "0x");
                   ("nonce", JStr (TEthfinexApi.nonce_now (sample_world accepted_answer)));
                   ("signature",
                    JStr (TEthfinexApi.eth_sign (sample_world accepted_answer)
                            (TEthfinexApi.nonce_now (sample_world accepted_answer))))]))
      (TEthfinexApi.timeout sample_api) in
  let orders := [Order.mk 8 "ETHUSD" false (Wad.mk 5000000000000000)
                          (Wad.mk 500000000000000000000)] in
  events (TEthfinexApi.get_orders (sample_world accepted_answer) sample_api "ETHUSD")
  = [Http request] /\
  exists raws : list RawOrder.t,
    json_value (TEthfinexApi.requests_post_orders (sample_world accepted_answer) request)
    = Some raws /\
    List.length orders = List.length raws /\
    Forall2
      (fun raw o =>
         Order.to_order "ETHUSD" raw = Ok o /\
         Order.order_id o = RawOrder.id raw /\
         Order.pair o = "ETHUSD")
      raws orders.
Proof.
  apply (get_orders_shape (sample_world accepted_answer) sample_api "ETHUSD").
  vm_compute. reflexivity.
Defined.

(** X9: [get_orders] returns all orders or none: when one entry of the response
    has a zero quote amount [abs(amount) * price], the call raises the
    arithmetic error, whatever the other entries are. *)
Theorem get_orders_all_or_nothing
    (w : TEthfinexApi.World) (self : TEthfinexApi.t) (pair : string)
    (raws : list RawOrder.t) (raw : RawOrder.t) (s : string) :
  let request :=
    mkRequest POST
      (TEthfinexApi.api_server self ++ "/trustless/v1/r/orders/t" ++ pair)
      (Some (JObj [("protocol", JStr "0x");
                   ("nonce", JStr (TEthfinexApi.nonce_now w));
                   ("signature",
                    JStr (TEthfinexApi.eth_sign w (TEthfinexApi.nonce_now w)))]))
      (TEthfinexApi.timeout self) in
  TEthfinexApi.requests_post_orders w request = mkResponse true (Some raws) s ->
  In raw raws ->
  Wad.value (Wad.mul (Wad.abs (Wad.from_number (RawOrder.amount raw)))
                     (Wad.from_number (RawOrder.price raw))) = 0 ->
  TEthfinexApi.get_orders w self pair = ([Http request], Raise ArithmeticError).
Proof.
  intros request Hresp Hin Hzero. rewrite get_orders_run. fold request.
  rewrite Hresp. cbn. f_equal.
  apply mapM_one_error; [apply to_order_raises_arithmetic |].
  apply (mapM_raises _ _ raw Hin).
  unfold Order.to_order. rewrite (div_zero _ _ Hzero). reflexivity.
Qed.

Lemma get_orders_all_or_nothing_witness :
  TEthfinexApi.get_orders faulty_world sample_api "ETHUSD"
  = ([Http (mkRequest POST
              (TEthfinexApi.api_server sample_api ++ "/trustless/v1/r/orders/t" ++ "ETHUSD")
              (Some (JObj [("protocol", JStr "0x");
                           ("nonce", JStr (TEthfinexApi.nonce_now faulty_world));
                           ("signature",
                            JStr (TEthfinexApi.eth_sign faulty_world
                                    (TEthfinexApi.nonce_now faulty_world)))]))
              (TEthfinexApi.timeout sample_api))],
     Raise ArithmeticError).
Proof.
  apply (get_orders_all_or_nothing faulty_world sample_api "ETHUSD"
           [sample_order; zero_price_order] zero_price_order "200 OK").
  - reflexivity.
  - right. left. reflexivity.
  - vm_compute. reflexivity.
Defined.

Lemma get_trades_run (w : TEthfinexApi.World) (self : TEthfinexApi.t) (pair : string) :
  let request :=
    mkRequest POST
      (TEthfinexApi.api_server self ++ "/trustless/v1/r/orders/hist")
      (Some (JObj [("protocol", JStr "0x");
                   ("nonce", JStr (TEthfinexApi.nonce_now w));
                   ("signature",
                    JStr (TEthfinexApi.eth_sign w (TEthfinexApi.nonce_now w)))]))
      (TEthfinexApi.timeout self) in
  TEthfinexApi.get_trades w self pair 1
  = ([Http request],
     (result <- TEthfinexApi._result (TEthfinexApi.requests_post_history w request) ;;
      mapM (Trade.to_trade (TEthfinexApi.dateutil_timestamp w))
           (filter (fun raw => contains "EXECUTED" (RawTrade.status raw)) result))%result).
Proof.
  intros request. unfold TEthfinexApi.get_trades, TEthfinexApi._get_orders.
  rewrite http_post_run. fold request. cbn.
  destruct (TEthfinexApi._result _); reflexivity.
Qed.

Lemma to_trade_returns (parse : string -> option Z) (raw : RawTrade.t) :
  parse (RawTrade.updated_at raw ++ "Z") <> None ->
  Wad.value (Wad.mul (Wad.from_number (RawTrade.price raw))
                     (Wad.from_number (RawTrade.amount_orig raw))) <> 0 ->
  raises (Trade.to_trade parse raw) = false.
Proof.
  intros Hts Ht. unfold Trade.to_trade, Trade.parse_timestamp.
  destruct (parse _); [| contradiction]. cbn [rbind].
  rewrite (div_nonzero _ _ Ht). reflexivity.
Qed.

(** X10: [get_trades] converts the executed entries only: when every entry whose
    status contains "EXECUTED" has a timestamp that parses and a nonzero
    total, the call returns one trade per executed entry, whatever the other
    entries hold. *)
Theorem get_trades_converts_executed_only
    (w : TEthfinexApi.World) (self : TEthfinexApi.t) (pair : string)
    (raws : list RawTrade.t) (s : string) :
  let request :=
    mkRequest POST
      (TEthfinexApi.api_server self ++ "/trustless/v1/r/orders/hist")
      (Some (JObj [("protocol", JStr "0x");
                   ("nonce", JStr (TEthfinexApi.nonce_now w));
                   ("signature",
                    JStr (TEthfinexApi.eth_sign w (TEthfinexApi.nonce_now w)))]))
      (TEthfinexApi.timeout self) in
  TEthfinexApi.requests_post_history w request = mkResponse true (Some raws) s ->
  (forall raw : RawTrade.t,
     In raw raws ->
     contains "EXECUTED" (RawTrade.status raw) = true ->
     TEthfinexApi.dateutil_timestamp w (RawTrade.updated_at raw ++ "Z") <> None /\
     Wad.value (Wad.mul (Wad.from_number (RawTrade.price raw))
                        (Wad.from_number (RawTrade.amount_orig raw))) <> 0) ->
  exists trades : list Trade.t,
    outcome (TEthfinexApi.get_trades w self pair 1) = Ok trades /\
    List.length trades
    = List.length (filter (fun raw => contains "EXECUTED" (RawTrade.status raw)) raws).
Proof.
  intros request Hresp Hall. rewrite get_trades_run. fold request.
  rewrite Hresp. cbn [outcome snd TEthfinexApi._result ok json_value negb rbind].
  apply mapM_all_Ok. intros raw Hin. apply filter_In in Hin. destruct Hin as [Hin Hex].
  destruct (Hall raw Hin Hex) as [Hts Ht]. apply to_trade_returns; assumption.
Qed.

Lemma get_trades_converts_executed_only_witness :
  exists trades : list Trade.t,
    outcome (TEthfinexApi.get_trades (sample_world accepted_answer) sample_api "ETHUSD" 1)
    = Ok trades /\
    List.length trades
    = List.length (filter (fun raw => contains "EXECUTED" (RawTrade.status raw))
                          [third_trade; cancelled_trade]).
Proof.
  apply (get_trades_converts_executed_only (sample_world accepted_answer) sample_api
           "ETHUSD" [third_trade; cancelled_trade] "200 OK").
  - reflexivity.
  - intros raw [<- | [<- | []]] Hex.
    + split; vm_compute; discriminate.
    + vm_compute in Hex. discriminate Hex.
Defined.

(** X11: [get_trades] returns all trades or none: one executed entry whose total
    [price * amount_orig] is zero makes the whole call raise. *)
Theorem get_trades_all_or_nothing
    (w : TEthfinexApi.World) (self : TEthfinexApi.t) (pair : string)
    (raws : list RawTrade.t) (raw : RawTrade.t) (s : string) :
  let request :=
    mkRequest POST
      (TEthfinexApi.api_server self ++ "/trustless/v1/r/orders/hist")
      (Some (JObj [("protocol", JStr "0x");
                   ("nonce", JStr (TEthfinexApi.nonce_now w));
                   ("signature",
                    JStr (TEthfinexApi.eth_sign w (TEthfinexApi.nonce_now w)))]))
      (TEthfinexApi.timeout self) in
  TEthfinexApi.requests_post_history w request = mkResponse true (Some raws) s ->
  In raw raws ->
  contains "EXECUTED" (RawTrade.status raw) = true ->
  Wad.value (Wad.mul (Wad.from_number (RawTrade.price raw))
                     (Wad.from_number (RawTrade.amount_orig raw))) = 0 ->
  raises (outcome (TEthfinexApi.get_trades w self pair 1)) = true.
Proof.
  intros request Hresp Hin Hex Hzero. rewrite get_trades_run. fold request.
  rewrite Hresp. cbn [outcome snd TEthfinexApi._result ok json_value negb rbind].
  apply (mapM_raises _ _ raw).
  - apply filter_In. split; assumption.
  - unfold Trade.to_trade. rewrite (div_zero _ _ Hzero).
    destruct (Trade.parse_timestamp _ _); reflexivity.
Qed.

Lemma get_trades_all_or_nothing_witness :
  raises (outcome (TEthfinexApi.get_trades faulty_world sample_api "ETHUSD" 1)) = true.
Proof.
  apply (get_trades_all_or_nothing faulty_world sample_api "ETHUSD"
           [third_trade; zero_trade] zero_trade "200 OK").
  - reflexivity.
  - right. left. reflexivity.
  - vm_compute. reflexivity.
  - vm_compute. reflexivity.
Defined.

Lemma get_all_trades_run
    (w : TEthfinexApi.World) (self : TEthfinexApi.t) (pair : string) :
  let request :=
    mkRequest GET (TEthfinexApi.api_server self ++ "/v1/trades/" ++ pair) None
              (TEthfinexApi.timeout self) in
  TEthfinexApi.get_all_trades w self pair 1
  = ([Http request],
     (result <- TEthfinexApi._result (TEthfinexApi.requests_get_trades w request) ;;
      Ok (map (fun item =>
                 Trade.mk (RawPublicTrade.tid item)
                          (RawPublicTrade.timestamp item)
                          (if String.eqb (RawPublicTrade.type item) "sell"
                           then true else false)
                          pair
                          (Wad.from_number (RawPublicTrade.price item))
                          (Wad.from_number (RawPublicTrade.amount item)))
              result))%result).
Proof.
  intros request. subst request.
  unfold TEthfinexApi.get_all_trades, TEthfinexApi._http_get. cbn.
  destruct (TEthfinexApi._result _); reflexivity.
Qed.

(** X12: [get_all_trades] never fails on the numbers it reads: for every decoded
    list of public trades it returns one trade per entry, in order, with the
    entry's id and timestamp, the [pair] that was asked for, the price and
    amount as quoted (no reciprocal, so zeros are accepted) and [is_sell]
    set exactly for the type "sell". *)
Theorem get_all_trades_maps_every_entry
    (w : TEthfinexApi.World) (self : TEthfinexApi.t) (pair : string)
    (items : list RawPublicTrade.t) (s : string) :
  let request :=
    mkRequest GET (TEthfinexApi.api_server self ++ "/v1/trades/" ++ pair) None
              (TEthfinexApi.timeout self) in
  TEthfinexApi.requests_get_trades w request = mkResponse true (Some items) s ->
  exists trades : list Trade.t,
    TEthfinexApi.get_all_trades w self pair 1 = ([Http request], Ok trades) /\
    Forall2
      (fun item t =>
         Trade.trade_id t = RawPublicTrade.tid item /\
         Trade.timestamp t = RawPublicTrade.timestamp item /\
         (Trade.is_sell t = true <-> RawPublicTrade.type item = "sell") /\
         Trade.pair t = pair /\
         Trade.price t = Wad.from_number (RawPublicTrade.price item) /\
         Trade.amount t = Wad.from_number (RawPublicTrade.amount item))
      items trades.
Proof.
  intros request Hresp. eexists. split.
  - rewrite get_all_trades_run. fold request. rewrite Hresp. cbn. reflexivity.
  - clear Hresp. induction items as [| item tl IH]; cbn; constructor; [| exact IH].
    cbn. repeat split; try reflexivity.
    + destruct (String.eqb_spec (RawPublicTrade.type item) "sell"); [trivial | discriminate].
    + intros ->. reflexivity.
Qed.

Lemma get_all_trades_maps_every_entry_witness :
  exists trades : list Trade.t,
    TEthfinexApi.get_all_trades faulty_world sample_api "ETHUSD" 1
    = ([Http (mkRequest GET
                (TEthfinexApi.api_server sample_api ++ "/v1/trades/" ++ "ETHUSD") None
                (TEthfinexApi.timeout sample_api))],
       Ok trades) /\
    Forall2
      (fun item t =>
         Trade.trade_id t = RawPublicTrade.tid item /\
         Trade.timestamp t = RawPublicTrade.timestamp item /\
         (Trade.is_sell t = true <-> RawPublicTrade.type item = "sell") /\
         Trade.pair t = "ETHUSD" /\
         Trade.price t = Wad.from_number (RawPublicTrade.price item) /\
         Trade.amount t = Wad.from_number (RawPublicTrade.amount item))
      [public_sale;
       RawPublicTrade.mk 22 1559390401 "buy" (mkNumber 0 0) (mkNumber 0 0)]
      trades.
Proof.
  apply (get_all_trades_maps_every_entry faulty_world sample_api "ETHUSD"
           [public_sale;
            RawPublicTrade.mk 22 1559390401 "buy" (mkNumber 0 0) (mkNumber 0 0)]
           "200 OK").
  reflexivity.
Defined.

Lemma cancel_order_run (w : TEthfinexApi.World) (self : TEthfinexApi.t) (order_id : Z) :
  let request :=
    mkRequest POST
      (TEthfinexApi.api_server self ++ "/trustless/v1/w/oc")
      (Some (JObj [("orderId", JStr (str_int order_id));
                   ("protocol", JStr "0x");
                   ("signature", JStr (TEthfinexApi.eth_sign w (str_int order_id)))]))
      (TEthfinexApi.timeout self) in
  TEthfinexApi.cancel_order w self order_id
  = match (data <- TEthfinexApi._result (TEthfinexApi.requests_post w request) ;;
           getitem0 data)%result with
    | Ok first =>
        ([Log (CancellingOrder order_id); Http request;
          Log (if eq_int first order_id then CancelledOrder order_id
               else FailedToCancelOrder order_id)],
         Ok (eq_int first order_id))
    | Raise e => ([Log (CancellingOrder order_id); Http request], Raise e)
    end.
Proof.
  intros request. unfold TEthfinexApi.cancel_order, TEthfinexApi._http_post.
  cbn. fold request.
  destruct (TEthfinexApi._result _) as [data |]; cbn; [| reflexivity].
  destruct (getitem0 data) as [first |]; cbn; [| reflexivity].
  destruct (eq_int first order_id); reflexivity.
Qed.

(** X13: The log of [cancel_order] tells its result: the call first logs that it
    is cancelling and then makes its request; it logs "Cancelled" exactly when
    it returns true, "Failed to cancel" exactly when it returns false, and
    neither when it raises. *)
Theorem cancel_order_log_tells_result
    (w : TEthfinexApi.World) (self : TEthfinexApi.t) (order_id : Z) :
  let request :=
    mkRequest POST
      (TEthfinexApi.api_server self ++ "/trustless/v1/w/oc")
      (Some (JObj [("orderId", JStr (str_int order_id));
                   ("protocol", JStr "0x");
                   ("signature", JStr (TEthfinexApi.eth_sign w (str_int order_id)))]))
      (TEthfinexApi.timeout self) in
  let m := TEthfinexApi.cancel_order w self order_id in
  (exists rest : list event,
     events m = Log (CancellingOrder order_id) :: Http request :: rest) /\
  (outcome m = Ok true <-> In (Log (CancelledOrder order_id)) (events m)) /\
  (outcome m = Ok false <-> In (Log (FailedToCancelOrder order_id)) (events m)).
Proof.
  intros request m. unfold m. rewrite cancel_order_run. fold request.
  destruct (rbind _ _) as [first | e]; [destruct (eq_int first order_id) |];
    cbn [events outcome fst snd].
  - split; [eexists; reflexivity |]. split; split.
    + intros _. right. right. left. reflexivity.
    + reflexivity.
    + discriminate.
    + intros [H | [H | [H | []]]]; discriminate.
  - split; [eexists; reflexivity |]. split; split.
    + discriminate.
    + intros [H | [H | [H | []]]]; discriminate.
    + intros _. right. right. left. reflexivity.
    + reflexivity.
  - split; [eexists; reflexivity |]. split; split.
    + discriminate.
    + intros [H | [H | []]]; discriminate.
    + discriminate.
    + intros [H | [H | []]]; discriminate.
Qed.

Lemma place_order_not_sent
    (w : TEthfinexApi.World) (self : TEthfinexApi.t)
    (is_sell : bool) (pay_token : string) (pay_amount : Wad.t)
    (buy_token : string) (buy_amount : Wad.t) (fee_address pair : string) (e : exn) :
  (if is_sell then Wad.div pay_amount buy_amount
   else Wad.div buy_amount pay_amount) = Raise e ->
  TEthfinexApi.place_order w self is_sell pay_token pay_amount
    buy_token buy_amount fee_address pair = ([], Raise e).
Proof.
  intros Hq. unfold TEthfinexApi.place_order.
  destruct is_sell; cbn; rewrite Hq; reflexivity.
Qed.

(** X14: No method of the client repeats a request: [get_symbols], [get_config],
    [get_orders] and [cancel_order] make exactly one HTTP request per call,
    [place_order], [get_trades] and [get_all_trades] at most one. *)
Theorem one_request_per_call
    (w : TEthfinexApi.World) (self : TEthfinexApi.t) (pair : string)
    (page_number order_id : Z) (is_sell : bool) (pay_token buy_token fee_address : string)
    (pay_amount buy_amount : Wad.t) :
  List.length (requests_of (events (TEthfinexApi.get_symbols w self))) = 1%nat /\
  List.length (requests_of (events (TEthfinexApi.get_config w self))) = 1%nat /\
  List.length (requests_of (events (TEthfinexApi.get_orders w self pair))) = 1%nat /\
  List.length (requests_of (events (TEthfinexApi.cancel_order w self order_id))) = 1%nat /\
  (List.length (requests_of (events
     (TEthfinexApi.place_order w self is_sell pay_token pay_amount buy_token
        buy_amount fee_address pair))) <= 1)%nat /\
  (List.length (requests_of (events
     (TEthfinexApi.get_trades w self pair page_number))) <= 1)%nat /\
  (List.length (requests_of (events
     (TEthfinexApi.get_all_trades w self pair page_number))) <= 1)%nat.
Proof.
  refine (conj _ (conj _ (conj _ (conj _ (conj _ (conj _ _)))))).
  - reflexivity.
  - reflexivity.
  - rewrite get_orders_run. reflexivity.
  - rewrite (proj1 (cancel_order_unfold w self order_id)). reflexivity.
  - destruct (if is_sell then Wad.div pay_amount buy_amount
              else Wad.div buy_amount pay_amount) as [price | e] eqn:Hq.
    + rewrite (proj1 (place_order_unfold w self is_sell pay_token pay_amount
                        buy_token buy_amount fee_address pair price Hq)).
      apply Nat.le_refl.
    + rewrite (place_order_not_sent _ _ _ _ _ _ _ _ _ _ Hq). apply Nat.le_0_l.
  - destruct (Z.eq_dec page_number 1) as [-> | Hne].
    + rewrite get_trades_requests. apply Nat.le_refl.
    + unfold TEthfinexApi.get_trades, assert.
      destruct (Z.eqb_spec page_number 1); [contradiction | apply Nat.le_0_l].
  - destruct (Z.eq_dec page_number 1) as [-> | Hne].
    + rewrite get_all_trades_requests. apply Nat.le_refl.
    + unfold TEthfinexApi.get_all_trades, assert.
      destruct (Z.eqb_spec page_number 1); [contradiction | apply Nat.le_0_l].
Qed.

(** X15: A response that is not [ok] reaches the caller of every method as the
    error of [_result]: none of the methods swallows it or turns it into a
    value.  [cancel_order] then logs neither success nor failure, and
    [place_order] raises it whenever it got as far as sending the order. *)
Theorem http_failure_reaches_caller
    (w : TEthfinexApi.World) (self : TEthfinexApi.t) (pair : string) (order_id : Z)
    (is_sell : bool) (pay_token buy_token fee_address : string)
    (pay_amount buy_amount price : Wad.t) :
  (forall request, ok (TEthfinexApi.requests_get w request) = false) ->
  (forall request, ok (TEthfinexApi.requests_post w request) = false) ->
  (forall request, ok (TEthfinexApi.requests_post_orders w request) = false) ->
  (forall request, ok (TEthfinexApi.requests_post_history w request) = false) ->
  (forall request, ok (TEthfinexApi.requests_get_trades w request) = false) ->
  raises_http_error (TEthfinexApi.get_symbols w self) /\
  raises_http_error (TEthfinexApi.get_config w self) /\
  raises_http_error (TEthfinexApi.get_orders w self pair) /\
  raises_http_error (TEthfinexApi.get_trades w self pair 1) /\
  raises_http_error (TEthfinexApi.get_all_trades w self pair 1) /\
  raises_http_error (TEthfinexApi.cancel_order w self order_id) /\
  (forall line : log_line,
     In (Log line) (events (TEthfinexApi.cancel_order w self order_id)) ->
     line = CancellingOrder order_id) /\
  ((if is_sell then Wad.div pay_amount buy_amount
    else Wad.div buy_amount pay_amount) = Ok price ->
   raises_http_error
     (TEthfinexApi.place_order w self is_sell pay_token pay_amount buy_token
        buy_amount fee_address pair)).
Proof.
  intros Hget Hpost Horders Hhistory Htrades. unfold raises_http_error.
  refine (conj _ (conj _ (conj _ (conj _ (conj _ (conj _ (conj _ _))))))).
  - unfold TEthfinexApi.get_symbols, TEthfinexApi._http_get. cbn.
    unfold TEthfinexApi._result. rewrite Hget. eexists. reflexivity.
  - unfold TEthfinexApi.get_config. rewrite http_post_run. cbn.
    unfold TEthfinexApi._result. rewrite Hpost. eexists. reflexivity.
  - rewrite get_orders_run. cbn. unfold TEthfinexApi._result. rewrite Horders.
    eexists. reflexivity.
  - rewrite get_trades_run. cbn. unfold TEthfinexApi._result. rewrite Hhistory.
    eexists. reflexivity.
  - rewrite get_all_trades_run. cbn. unfold TEthfinexApi._result. rewrite Htrades.
    eexists. reflexivity.
  - rewrite cancel_order_run. unfold TEthfinexApi._result. rewrite Hpost.
    cbn. eexists. reflexivity.
  - intros line. rewrite cancel_order_run. unfold TEthfinexApi._result.
    rewrite Hpost. cbn. intros [[= <-] | [H | []]]; [reflexivity | discriminate].
  - intros Hq.
    rewrite (proj2 (place_order_unfold w self is_sell pay_token pay_amount
                      buy_token buy_amount fee_address pair price Hq)).
    unfold TEthfinexApi._result. rewrite Hpost. cbn. eexists. reflexivity.
Qed.

Lemma http_failure_reaches_caller_witness :
  raises_http_error (TEthfinexApi.get_orders down_world sample_api "ETHUSD") /\
  raises_http_error (TEthfinexApi.cancel_order down_world sample_api 42) /\
  raises_http_error
    (TEthfinexApi.place_order down_world sample_api true "0xweth"
       (Wad.mk (3 * 10 ^ 18)) "0xdai" (Wad.mk (600 * 10 ^ 18)) "0xfee" "ETHUSD").
Proof.
  assert (Wad.div (Wad.mk (3 * 10 ^ 18)) (Wad.mk (600 * 10 ^ 18))
          = Ok (Wad.mk 5000000000000000)) as Hprice by (vm_compute; reflexivity).
  destruct (http_failure_reaches_caller down_world sample_api "ETHUSD" 42
              true "0xweth" "0xdai" "0xfee"
              (Wad.mk (3 * 10 ^ 18)) (Wad.mk (600 * 10 ^ 18))
              (Wad.mk 5000000000000000)
              (fun _ => eq_refl) (fun _ => eq_refl) (fun _ => eq_refl)
              (fun _ => eq_refl) (fun _ => eq_refl))
    as [_ [_ [Horders [_ [_ [Hcancel [_ Hplace]]]]]]].
  split; [exact Horders |]. split; [exact Hcancel |]. exact (Hplace Hprice).
Defined.

(** ** The amounts of the order that [place_order] signs *)




(** ** What [place_order] logs *)

(** [place_order], with its price computed: the intent is logged, the order
    is sent, and the answer is logged once its element 0 is there. *)
Lemma place_order_run
    (w : TEthfinexApi.World) (self : TEthfinexApi.t)
    (is_sell : bool) (pay_token : string) (pay_amount : Wad.t)
    (buy_token : string) (buy_amount : Wad.t) (fee_address pair : string)
    (price : Wad.t) :
  let order :=
    ZrxOrder.mk (default_account (TEthfinexApi.tethfinex self))
                fee_address (Wad.mk 0) (Wad.mk 0)
                pay_token
                (if is_sell then Wad.mul price buy_amount else pay_amount)
                buy_token
                (if is_sell then buy_amount else Wad.mul price pay_amount)
                (random_salt (TEthfinexApi.tethfinex self))
                fee_address
                (TEthfinexApi.strftime_s w (TEthfinexApi.today w + 6 * 3600))
                (address (TEthfinexApi.tethfinex self))
                None None None in
  let amount := if is_sell then Wad.str buy_amount else "-" ++ Wad.str pay_amount in
  let request :=
    mkRequest POST
      (TEthfinexApi.api_server self ++ "/trustless/v1/w/on")
      (Some (JObj [("type", JStr "EXCHANGE LIMIT");
                   ("symbol", JStr ("t" ++ pair));
                   ("amount", JStr amount);
                   ("price", JStr (Wad.str price));
                   ("meta", TEthfinexApi.to_json w
                              (sign_order (TEthfinexApi.tethfinex self) order));
                   ("protocol", JStr "0x")]))
      (TEthfinexApi.timeout self) in
  let intent :=
    Log (PlacingOrder (if is_sell then "SELL" else "BUY") amount pair (Wad.str price)) in
  (if is_sell then Wad.div pay_amount buy_amount
   else Wad.div buy_amount pay_amount) = Ok price ->
  TEthfinexApi.place_order w self is_sell pay_token pay_amount
    buy_token buy_amount fee_address pair
  = match (data <- TEthfinexApi._result (TEthfinexApi.requests_post w request) ;;
           getitem0 data)%result with
    | Ok first => ([intent; Http request; Log (PlacedOrder first)], Ok first)
    | Raise e => ([intent; Http request], Raise e)
    end.
Proof.
  intros order amount request intent Hq.
  unfold TEthfinexApi.place_order, TEthfinexApi._http_post,
    TEthfinexApi.place_order_data.
  subst intent amount.
  destruct is_sell; rewrite Hq; cbn; fold request.
  all: destruct (TEthfinexApi._result _) as [data |]; cbn; [| reflexivity].
  all: destruct (getitem0 data) as [first |]; reflexivity.
Qed.

(** X17: The log of [place_order] tells what happened.  The call logs an answer,
    the value it returns, exactly when it returns; and whenever it sends a
    request it has logged its intent just before, with the side, the pair and
    the very amount and price strings of the payload. *)
Theorem place_order_log_tells_result
    (w : TEthfinexApi.World) (self : TEthfinexApi.t)
    (is_sell : bool) (pay_token : string) (pay_amount : Wad.t)
    (buy_token : string) (buy_amount : Wad.t) (fee_address pair : string) :
  let m := TEthfinexApi.place_order w self is_sell pay_token pay_amount
             buy_token buy_amount fee_address pair in
  (forall first : json,
     outcome m = Ok first <-> In (Log (PlacedOrder first)) (events m)) /\
  (events m = [] \/
   exists (amount price : string) (meta : json) (rest : list event),
     events m
     = Log (PlacingOrder (if is_sell then "SELL" else "BUY") amount pair price)
       :: Http (mkRequest POST
                  (TEthfinexApi.api_server self ++ "/trustless/v1/w/on")
                  (Some (JObj [("type", JStr "EXCHANGE LIMIT");
                               ("symbol", JStr ("t" ++ pair));
                               ("amount", JStr amount);
                               ("price", JStr price);
                               ("meta", meta);
                               ("protocol", JStr "0x")]))
                  (TEthfinexApi.timeout self))
       :: rest).
Proof.
  intros m. unfold m.
  destruct (if is_sell then Wad.div pay_amount buy_amount
            else Wad.div buy_amount pay_amount) as [price | e] eqn:Hq.
  - rewrite (place_order_run w self is_sell pay_token pay_amount buy_token
               buy_amount fee_address pair price Hq).
    destruct (rbind _ _) as [answer | e]; cbn [events outcome fst snd]; split.
    + intros first. split.
      * intros [= <-]. right. right. left. reflexivity.
      * intros [H | [H | [H | []]]]; try discriminate. injection H as <-. reflexivity.
    + right. do 4 eexists. reflexivity.
    + intros first. split; [discriminate |].
      intros [H | [H | []]]; discriminate.
    + right. do 4 eexists. reflexivity.
  - rewrite (place_order_not_sent _ _ _ _ _ _ _ _ _ _ Hq).
    cbn [events outcome fst snd]. split.
    + intros first. split; [discriminate | intros []].
    + left. reflexivity.
Qed.

(** ** Orders and trades are normalised alike *)

(** X5: An entry of the order book and an entry of the order history with the
    same amount and price are normalised alike: when [to_order] returns an
    order, [to_trade] returns, for every timestamp that parses, the trade
    with the same [is_sell] and the same [price], and with the absolute value
    of the order's [amount]. *)
Theorem to_trade_agrees_with_to_order
    (parse : string -> option Z) (pair : string) (id ts : Z)
    (updated_at status : string) (price amount : number) (o : Order.t) :
  Order.to_order pair (RawOrder.mk id amount price) = Ok o ->
  parse (updated_at ++ "Z") = Some ts ->
  Trade.to_trade parse (RawTrade.mk id updated_at status pair price amount)
  = Ok (Trade.mk id ts (Order.is_sell o) pair (Order.price o) (Wad.abs (Order.amount o))).
Proof.
  intros Ho Hts. apply to_order_Ok_inv in Ho.
  cbn [RawOrder.amount RawOrder.price RawOrder.id] in Ho. destruct Ho as [Hq ->].
  cbn [Order.is_sell Order.price Order.amount].
  pose proof WAD_pos as HW.
  set (a := Wad.value (Wad.from_number amount)) in *.
  set (p := Wad.value (Wad.from_number price)) in *.
  unfold Wad.mul, Wad.abs in Hq. cbn [Wad.value] in Hq. fold a p in Hq.
  assert (Z.quot (p * a) Wad.WAD <> 0 /\
          Z.abs (Z.quot (p * a) Wad.WAD) = Z.abs (Z.quot (Z.abs a * p) Wad.WAD) /\
          Z.quot (a * Wad.WAD) (Z.quot (p * a) Wad.WAD)
          = Z.quot (Z.abs a * Wad.WAD) (Z.quot (Z.abs a * p) Wad.WAD)) as [Ht [Habs Hprice]].
  { destruct (Z.le_gt_cases 0 a) as [Ha | Ha].
    - rewrite (Z.abs_eq a Ha) in *. rewrite (Z.mul_comm p a). auto.
    - rewrite (Z.abs_neq a) in * by lia.
      replace (p * a) with (- (- a * p)) by ring.
      rewrite Z.quot_opp_l by lia. split; [lia |]. split; [apply Z.abs_opp |].
      replace (a * Wad.WAD) with (- (- a * Wad.WAD)) by ring.
      apply Z.quot_opp_opp. exact Hq. }
  unfold Trade.to_trade, Trade.parse_timestamp.
  cbn [RawTrade.amount_orig RawTrade.price RawTrade.updated_at RawTrade.id RawTrade.pair].
  rewrite Hts. cbn [rbind].
  rewrite div_nonzero by (unfold Wad.mul; cbn [Wad.value]; exact Ht).
  cbn [rbind]. unfold Wad.mul, Wad.abs. cbn [Wad.value]. fold a p.
  rewrite Hprice, Habs. reflexivity.
Qed.

Lemma to_trade_agrees_with_to_order_witness :
  Trade.to_trade sample_timestamp
    (RawTrade.mk 8 "2019-06-01T12:00:00" "EXECUTED" "ETHUSD"
                 (mkNumber 200 0) (mkNumber (-25) (-1)))
  = Ok (Trade.mk 8 1559390400 false "ETHUSD" (Wad.mk 5000000000000000)
                 (Wad.abs (Wad.mk 500000000000000000000))).
Proof.
  apply (to_trade_agrees_with_to_order sample_timestamp "ETHUSD" 8 1559390400
           "2019-06-01T12:00:00" "EXECUTED" (mkNumber 200 0) (mkNumber (-25) (-1))
           (Order.mk 8 "ETHUSD" false (Wad.mk 5000000000000000)
                     (Wad.mk 500000000000000000000))).
  - vm_compute. reflexivity.
  - vm_compute. reflexivity.
Defined.
